(** * Loan eligibility model: a shallow embedding of the scoring engine

    The development follows the class [LoanEligibilityModel] of the module
    that the services import as [ml/modelTraining]: feature engineering, the
    scaler fit, the gradient loop, the evaluation metrics, [train],
    [predict], and the module-level accessors [getOrCreateModel] and
    [trainNewModel].

    Numbers.  A JavaScript [number] is modelled by [number] below: an exact
    rational, or one of the three special values NaN, +Infinity and
    -Infinity, with the arithmetic, comparison and truthiness rules of
    ECMAScript on them.  Rounding to binary64, overflow of finite values and
    the sign of zero are not modelled (there is one zero, and a non-zero
    number divided by it is an infinity of the sign of the numerator);
    every statement below is proved in this exact arithmetic.  The
    theorems on what the functions return are worded so as not to lean on
    it: they give a result by the formula of the code, they bound a result
    only where rounding keeps the bound, and they name NaN as an outcome
    where overflow can produce it.  The module [Double] repeats the numeric
    core of [predict] on binary64 numbers and shows such outcomes.
    [Math.exp], [Math.sqrt] and [Math.random] are left open (section
    variables): ECMAScript fixes them only up to an
    implementation-approximated or implementation-defined value. *)

From Stdlib Require Import QArith Qround Qabs Lia Lqa ZArith String List Sorted Permutation.
From Stdlib Require PrimFloat.
From stdpp Require Import base option list gmap strings.
Import ListNotations.

Open Scope string_scope.

(** ** JavaScript numbers *)

Inductive number : Type :=
| NaN
| NegInf
| Fin (q : Q)
| PosInf.

Arguments Fin q%_Q.

Module JS.

Definition of_nat (n : nat) : number := Fin (inject_Z (Z.of_nat n)).

(** Sign of a number, [Eq] standing for "zero or NaN". *)
Definition sign (x : number) : comparison :=
  match x with
  | NaN => Eq
  | NegInf => Lt
  | PosInf => Gt
  | Fin q => (q ?= 0)%Q
  end.

Definition sign_mul (s t : comparison) : comparison :=
  match s, t with
  | Eq, _ | _, Eq => Eq
  | Lt, Lt | Gt, Gt => Gt
  | _, _ => Lt
  end.

(** The infinity of a given sign; a zero sign gives [NaN]
    (0 * Infinity, 0 / 0). *)
Definition inf_of (s : comparison) : number :=
  match s with
  | Lt => NegInf
  | Gt => PosInf
  | Eq => NaN
  end.

Definition neg (x : number) : number :=
  match x with
  | NaN => NaN
  | NegInf => PosInf
  | PosInf => NegInf
  | Fin q => Fin (- q)
  end.

Definition add (x y : number) : number :=
  match x, y with
  | NaN, _ | _, NaN => NaN
  | PosInf, NegInf | NegInf, PosInf => NaN
  | PosInf, _ | _, PosInf => PosInf
  | NegInf, _ | _, NegInf => NegInf
  | Fin a, Fin b => Fin (a + b)
  end.

Definition sub (x y : number) : number := add x (neg y).

Definition mul (x y : number) : number :=
  match x, y with
  | NaN, _ | _, NaN => NaN
  | Fin a, Fin b => Fin (a * b)
  | _, _ => inf_of (sign_mul (sign x) (sign y))
  end.

(** Division.  A finite non-zero number over zero is an infinity of the
    sign of the numerator, 0 / 0 is NaN. *)
Definition div (x y : number) : number :=
  match x, y with
  | NaN, _ | _, NaN => NaN
  | Fin a, Fin b =>
      if Qeq_bool b 0 then inf_of (sign x) else Fin (a / b)
  | Fin _, _ => Fin 0
  | _, Fin b =>
      inf_of (sign_mul (sign x) (if Qeq_bool b 0 then Gt else sign y))
  | _, _ => NaN
  end.

(** Comparisons; every comparison with NaN is false. *)
Definition le (x y : number) : bool :=
  match x, y with
  | NaN, _ | _, NaN => false
  | NegInf, _ | _, PosInf => true
  | Fin a, Fin b => Qle_bool a b
  | _, _ => false
  end.

Definition lt (x y : number) : bool :=
  match x, y with
  | NaN, _ | _, NaN => false
  | PosInf, _ | _, NegInf => false
  | Fin a, Fin b => negb (Qle_bool b a)
  | _, _ => true
  end.

Definition ge (x y : number) : bool := le y x.
Definition gt (x y : number) : bool := lt y x.

(** Strict equality [===] on numbers. *)
Definition strict_eq (x y : number) : bool :=
  match x, y with
  | NegInf, NegInf | PosInf, PosInf => true
  | Fin a, Fin b => Qeq_bool a b
  | _, _ => false
  end.

(** ToBoolean: zero and NaN are falsy. *)
Definition truthy (x : number) : bool :=
  match x with
  | NaN => false
  | Fin q => negb (Qeq_bool q 0)
  | _ => true
  end.

(** [x || d] on numbers. *)
Definition or_else (x d : number) : number := if truthy x then x else d.

(** [m.get(k) || d] for a [Map<string, number>]: a missing key gives
    [undefined], which is falsy. *)
Definition get_or (m : gmap string number) (k : string) (d : number) : number :=
  match m !! k with
  | Some v => or_else v d
  | None => d
  end.

End JS.

Module MathJS.

Definition abs (x : number) : number :=
  match x with
  | NaN => NaN
  | Fin q => Fin (Qabs q)
  | _ => PosInf
  end.

Definition floor (x : number) : number :=
  match x with
  | Fin q => Fin (inject_Z (Qfloor q))
  | _ => x
  end.

Definition ceil (x : number) : number :=
  match x with
  | Fin q => Fin (inject_Z (Qceiling q))
  | _ => x
  end.

(** [Math.round]: the nearest integer, a tie going to the larger one. *)
Definition round (x : number) : number :=
  match x with
  | Fin q => Fin (inject_Z (Qfloor (q + (1 # 2))%Q))
  | _ => x
  end.

Definition min (x y : number) : number :=
  match x, y with
  | NaN, _ | _, NaN => NaN
  | _, _ => if JS.le x y then x else y
  end.

Definition max (x y : number) : number :=
  match x, y with
  | NaN, _ | _, NaN => NaN
  | _, _ => if JS.le x y then y else x
  end.

(** [Math.pow] at a non-negative integer exponent (the source only uses
    the exponent 2). *)
Fixpoint pow (x : number) (n : nat) : number :=
  match n with
  | O => Fin 1
  | S n' => JS.mul x (pow x n')
  end.

End MathJS.

(** ** Objects, arrays and completions *)

(** A [Record<string, number>]: its own string-keyed properties in insertion
    order, which is the order [Object.keys] and [Object.entries] follow for
    keys that are not array indices. *)
Definition jsobject : Type := list (string * number).

Module Obj.

(** [o[k] = v]: overwrite in place when the key exists, append otherwise. *)
Fixpoint set (k : string) (v : number) (o : jsobject) : jsobject :=
  match o with
  | [] => [(k, v)]
  | (k', v') :: o' =>
      if String.eqb k k' then (k, v) :: o' else (k', v') :: set k v o'
  end.

(** [o[k]] read in an arithmetic position: a missing property is
    [undefined], which arithmetic turns into NaN. *)
Fixpoint get (o : jsobject) (k : string) : number :=
  match o with
  | [] => NaN
  | (k', v) :: o' => if String.eqb k k' then v else get o' k
  end.

Definition keys (o : jsobject) : list string := map fst o.

Definition entries (o : jsobject) : list (string * number) := o.

End Obj.

Module Arr.

(** ToIntegerOrInfinity followed by the clamping of a relative index that
    [Array.prototype.slice] performs. *)
Definition relative_index (len : nat) (x : number) : nat :=
  match x with
  | NaN | NegInf => O
  | PosInf => len
  | Fin q =>
      let z := if Qle_bool 0 q then Qfloor q else Qceiling q in
      if (z <? 0)%Z then Z.to_nat (Z.max (Z.of_nat len + z) 0)
      else Z.to_nat (Z.min z (Z.of_nat len))
  end.

(** [l.slice(start, end)]; [None] is an omitted [end]. *)
Definition slice {A : Type} (l : list A) (start : number) (stop : option number) : list A :=
  let len := length l in
  let k := relative_index len start in
  let final := match stop with
               | Some e => relative_index len e
               | None => len
               end in
  firstn (final - k) (skipn k l).

(** [l[i]] on an array of strings.  An index that is not one of
    0 .. length-1 gives [undefined]; the empty string stands for it, which
    like [undefined] is a key of no encoder table. *)
Definition get (l : list string) (i : number) : string :=
  match i with
  | Fin q =>
      if Qle_bool 0 q && Qeq_bool q (inject_Z (Qfloor q))
      then nth (Z.to_nat (Qfloor q)) l ""
      else ""
  | _ => ""
  end.

(** [l.sort(cmp)].  The sort is stable and puts [a] before [b] when
    [cmp(a, b) < 0]; a comparator result of NaN counts as 0.  For a
    consistent comparator this fixes the result, and stable insertion
    computes it.  A comparator that meets NaN keys is not consistent, and
    ECMAScript leaves the order to the implementation then; what is proved
    below of such a result holds of every arrangement of the entries. *)
Fixpoint sort_insert {A : Type} (cmp : A -> A -> number) (x : A) (l : list A) : list A :=
  match l with
  | [] => [x]
  | y :: l' =>
      if JS.gt (cmp x y) (Fin 0) then y :: sort_insert cmp x l'
      else x :: y :: l'
  end.

Fixpoint sort {A : Type} (cmp : A -> A -> number) (l : list A) : list A :=
  match l with
  | [] => []
  | x :: l' => sort_insert cmp x (sort cmp l')
  end.

End Arr.

(** How a call ends: with a value, or with a thrown error. *)
Inductive completion (A : Type) : Type :=
| Normal (a : A)
| Throw (error : string).

Arguments Normal {A} a.
Arguments Throw {A} error.

(** ** Data model *)

(** [Omit<TrainingData, 'approved'>] *)
Record Applicant : Type := mkApplicant {
  income : number;
  credit_history : number;
  loan_amount : number;
  loan_term : number;
  employment_type : string;
  dependents : number;
  marital_status : string
}.

Record TrainingData : Type := mkTrainingData {
  applicant : Applicant;
  approved : number
}.

Record ModelMetrics : Type := mkModelMetrics {
  accuracy : number;
  precision : number;
  recall : number;
  f1_score : number;
  training_samples : number;
  validation_samples : number
}.

Inductive EligibilityStatus : Type := Approved | Rejected.

Record PredictionResult : Type := mkPredictionResult {
  eligibility_status : EligibilityStatus;
  credit_score : number;
  prediction_confidence : number;
  probability_approved : number;
  feature_attributions : jsobject;
  explanation : string
}.

Record Scaler : Type := mkScaler {
  mean : gmap string number;
  std : gmap string number
}.

Record LoanEligibilityModel : Type := mkModel {
  weights : gmap string number;
  encoders : gmap string (gmap string number);
  scaler : Scaler;
  metrics : ModelMetrics;
  version : string
}.

(** ** The class [LoanEligibilityModel] *)

Section Model.

(** [Math.exp] and [Math.sqrt] of the host, and the stream of values that
    successive calls of [Math.random()] return: the state threaded through
    the methods that draw is the number of calls made so far. *)
Variable Math_exp : number -> number.
Variable Math_sqrt : number -> number.
Variable Math_random : nat -> number.

Definition initializeEncoders (this : LoanEligibilityModel) : LoanEligibilityModel :=
  let enc := <["employment_type" :=
                 <["business" := Fin 0.6]>
                   (<["self_employed" := Fin 0.5]>
                      (<["salaried" := Fin 0.8]> ∅))]> (encoders this) in
  let enc := <["marital_status" :=
                 <["widowed" := Fin 0.45]>
                   (<["divorced" := Fin 0.4]>
                      (<["single" := Fin 0.5]>
                         (<["married" := Fin 0.7]> ∅)))]> enc in
  mkModel (weights this) enc (scaler this) (metrics this) (version this).

(** [new LoanEligibilityModel()] *)
Definition constructor : LoanEligibilityModel :=
  initializeEncoders
    (mkModel ∅ ∅ (mkScaler ∅ ∅)
       (mkModelMetrics (Fin 0) (Fin 0) (Fin 0) (Fin 0) (Fin 0) (Fin 0))
       "v1.0-ensemble").

(** [this.encoders.get(field)?.get(key) || 0.5] *)
Definition encode (this : LoanEligibilityModel) (field key : string) : number :=
  match encoders this !! field with
  | Some table => JS.get_or table key (Fin 0.5)
  | None => Fin 0.5
  end.

Definition engineerFeatures (this : LoanEligibilityModel) (data : Applicant) : jsobject :=
  let features : jsobject := [] in
  let features := Obj.set "income" (income data) features in
  let features := Obj.set "credit_history" (credit_history data) features in
  let features := Obj.set "loan_amount" (loan_amount data) features in
  let features := Obj.set "loan_term" (loan_term data) features in
  let features := Obj.set "dependents" (dependents data) features in
  let features := Obj.set "employment_encoded"
                    (encode this "employment_type" (employment_type data)) features in
  let features := Obj.set "marital_encoded"
                    (encode this "marital_status" (marital_status data)) features in
  let features := Obj.set "loan_to_income_ratio"
                    (JS.div (loan_amount data) (JS.add (income data) (Fin 1))) features in
  let features := Obj.set "monthly_burden"
                    (JS.div (JS.mul (loan_amount data) (Fin 0.01)) (loan_term data)) features in
  let features := Obj.set "income_per_dependent"
                    (JS.div (income data) (JS.add (dependents data) (Fin 1))) features in
  let features := Obj.set "credit_x_income"
                    (JS.mul (credit_history data) (income data)) features in
  let features := Obj.set "risk_score"
                    (JS.mul
                       (JS.mul (JS.div (loan_amount data) (JS.add (income data) (Fin 1)))
                          (JS.sub (Fin 1) (credit_history data)))
                       (JS.add (dependents data) (Fin 1))) features in
  features.

(** One turn of the loop of [generateSyntheticData], the call counter being
    [c] at its start; it makes eight draws. *)
Definition generateSample (this : LoanEligibilityModel) (c : nat) : TrainingData :=
  let employmentTypes := ["salaried"; "self_employed"; "business"] in
  let maritalStatuses := ["single"; "married"; "divorced"; "widowed"] in
  let income := JS.add (Fin 200000) (JS.mul (Math_random c) (Fin 1800000)) in
  let credit_history := Math_random (c + 1) in
  let loan_amount := JS.add (Fin 100000) (JS.mul (Math_random (c + 2)) (Fin 4900000)) in
  let loan_term := JS.add (Fin 12) (MathJS.floor (JS.mul (Math_random (c + 3)) (Fin 348))) in
  let employment_type :=
    Arr.get employmentTypes
      (MathJS.floor (JS.mul (Math_random (c + 4)) (JS.of_nat (length employmentTypes)))) in
  let dependents := MathJS.floor (JS.mul (Math_random (c + 5)) (Fin 5)) in
  let marital_status :=
    Arr.get maritalStatuses
      (MathJS.floor (JS.mul (Math_random (c + 6)) (JS.of_nat (length maritalStatuses)))) in
  let lti_ratio := JS.div loan_amount income in
  let employment_score := encode this "employment_type" employment_type in
  let risk :=
    JS.mul (JS.mul lti_ratio (JS.sub (Fin 1) credit_history))
      (JS.add (JS.mul dependents (Fin 0.1)) (Fin 1)) in
  let base_approval_prob :=
    JS.add
      (JS.add
         (JS.add (JS.mul credit_history (Fin 0.4))
            (JS.mul (JS.div income (Fin 2000000)) (Fin 0.25)))
         (JS.mul employment_score (Fin 0.15)))
      (JS.mul (JS.sub (Fin 1) (MathJS.min (JS.div lti_ratio (Fin 5)) (Fin 1))) (Fin 0.2)) in
  let approval_prob :=
    MathJS.max (Fin 0)
      (MathJS.min (Fin 1)
         (JS.add (JS.sub base_approval_prob (JS.mul risk (Fin 0.3)))
            (JS.sub (JS.mul (Math_random (c + 7)) (Fin 0.1)) (Fin 0.05)))) in
  let approved := if JS.gt approval_prob (Fin 0.55) then Fin 1 else Fin 0 in
  mkTrainingData
    (mkApplicant income credit_history loan_amount loan_term employment_type
       dependents marital_status)
    approved.

(** [generateSyntheticData(samples)] from call counter [c]: the data and the
    counter after it. *)
Fixpoint generateSyntheticData (this : LoanEligibilityModel) (samples : nat) (c : nat)
  : list TrainingData * nat :=
  match samples with
  | O => ([], c)
  | S samples' =>
      let d := generateSample this c in
      let '(data, c') := generateSyntheticData this samples' (c + 8) in
      (d :: data, c')
  end.

(** Normalisation of one feature vector, the loop that [trainEnsemble],
    [train] and [predict] each write out:
    [normalized[name] = (f[name] - (mean.get(name) || 0)) / (std.get(name) || 1)]. *)
Definition normalize (sc : Scaler) (featureNames : list string) (f : jsobject) : jsobject :=
  fold_left
    (fun normalized name =>
       let mean := JS.get_or (mean sc) name (Fin 0) in
       let std := JS.get_or (std sc) name (Fin 1) in
       Obj.set name (JS.div (JS.sub (Obj.get f name) mean) std) normalized)
    featureNames [].

(** [logit += normalized[name] * (weights.get(name) || 0)] over the names. *)
Definition linear (w : gmap string number) (featureNames : list string) (normalized : jsobject)
  : number :=
  fold_left
    (fun logit name =>
       JS.add logit (JS.mul (Obj.get normalized name) (JS.get_or w name (Fin 0))))
    featureNames (Fin 0).

(** [1 / (1 + Math.exp(-x))] *)
Definition sigmoid (x : number) : number :=
  JS.div (Fin 1) (JS.add (Fin 1) (Math_exp (JS.neg x))).

(** The scaler fit of [trainEnsemble]: for every feature name the mean and
    the standard deviation of that feature over all vectors. *)
Definition fitFeature (features : list jsobject) (sc : Scaler) (name : string) : Scaler :=
  let values := map (fun f => Obj.get f name) features in
  let mean' :=
    JS.div (fold_left (fun a b => JS.add a b) values (Fin 0)) (JS.of_nat (length values)) in
  let variance :=
    JS.div
      (fold_left (fun a b => JS.add a (MathJS.pow (JS.sub b mean') 2)) values (Fin 0))
      (JS.of_nat (length values)) in
  let std' := JS.or_else (Math_sqrt variance) (Fin 1) in
  mkScaler (<[name := mean']> (mean sc)) (<[name := std']> (std sc)).

Definition fitScaler (features : list jsobject) (featureNames : list string) (sc : Scaler)
  : Scaler :=
  fold_left (fitFeature features) featureNames sc.

(** [weights.set(name, (Math.random() - 0.5) * 0.1)] for every name. *)
Definition initWeights (featureNames : list string) (w : gmap string number) (c : nat)
  : gmap string number * nat :=
  fold_left
    (fun '(w, c) name =>
       (<[name := JS.mul (JS.sub (Math_random c) (Fin 0.5)) (Fin 0.1)]> w, S c))
    featureNames (w, c).

(** The gradient that one training example adds. *)
Definition accumulate (w : gmap string number) (featureNames : list string)
    (gradients : gmap string number) (example : jsobject * TrainingData)
  : gmap string number :=
  let '(features, d) := example in
  let actual := approved d in
  let prediction := linear w featureNames features in
  let prob := sigmoid prediction in
  let error := JS.sub prob actual in
  fold_left
    (fun g name =>
       let grad := JS.mul error (Obj.get features name) in
       <[name := JS.add (JS.get_or g name (Fin 0)) grad]> g)
    featureNames gradients.

(** One epoch: the gradients of the whole batch, then the weight update. *)
Definition epoch (featureNames : list string) (normalizedFeatures : list jsobject)
    (trainingData : list TrainingData) (w : gmap string number) : gmap string number :=
  let learningRate := Fin 0.01 in
  let gradients := fold_left (fun g name => <[name := Fin 0]> g) featureNames ∅ in
  let gradients :=
    fold_left (accumulate w featureNames) (combine normalizedFeatures trainingData)
      gradients in
  fold_left
    (fun w name =>
       let weight := JS.get_or w name (Fin 0) in
       let grad :=
         JS.div (JS.get_or gradients name (Fin 0))
           (JS.of_nat (length normalizedFeatures)) in
       <[name := JS.sub weight (JS.mul learningRate grad)]> w)
    featureNames w.

(** [trainEnsemble(trainingData)]: the outcome, the object after the call
    and the call counter after it.  On an empty array [features[0]] is
    [undefined] and [Object.keys] throws before anything is written. *)
Definition trainEnsemble (this : LoanEligibilityModel) (trainingData : list TrainingData)
    (c : nat) : completion unit * LoanEligibilityModel * nat :=
  let features := map (fun d => engineerFeatures this (applicant d)) trainingData in
  match features with
  | [] => (Throw "TypeError: Cannot convert undefined or null to object", this, c)
  | f0 :: _ =>
      let featureNames := Obj.keys f0 in
      let sc := fitScaler features featureNames (scaler this) in
      let normalizedFeatures := map (normalize sc featureNames) features in
      let epochs := 100%nat in
      let '(w, c) := initWeights featureNames (weights this) c in
      let w := Nat.iter epochs (epoch featureNames normalizedFeatures trainingData) w in
      (Normal tt, mkModel w (encoders this) sc (metrics this) (version this), c)
  end.

(** The four counters of [calculateMetrics]. *)
Record Confusion : Type := mkConfusion {
  tp : nat;
  fp : nat;
  tn : nat;
  fn : nat
}.

(** The counting loop of [calculateMetrics]; [actuals[i]] past the end of
    [actuals] is [undefined], strictly equal to neither 0 nor 1, as NaN. *)
Fixpoint countOutcomes (predictions actuals : list number) (k : Confusion) : Confusion :=
  match predictions with
  | [] => k
  | p :: predictions' =>
      let pred := if JS.ge p (Fin 0.5) then Fin 1 else Fin 0 in
      let actual := hd NaN actuals in
      let k :=
        if JS.strict_eq pred (Fin 1) && JS.strict_eq actual (Fin 1)
        then mkConfusion (S (tp k)) (fp k) (tn k) (fn k)
        else if JS.strict_eq pred (Fin 1) && JS.strict_eq actual (Fin 0)
        then mkConfusion (tp k) (S (fp k)) (tn k) (fn k)
        else if JS.strict_eq pred (Fin 0) && JS.strict_eq actual (Fin 0)
        then mkConfusion (tp k) (fp k) (S (tn k)) (fn k)
        else if JS.strict_eq pred (Fin 0) && JS.strict_eq actual (Fin 1)
        then mkConfusion (tp k) (fp k) (tn k) (S (fn k))
        else k in
      countOutcomes predictions' (tl actuals) k
  end.

Definition calculateMetrics (predictions actuals : list number) : ModelMetrics :=
  let k := countOutcomes predictions actuals (mkConfusion 0 0 0 0) in
  let n := JS.of_nat (length predictions) in
  let accuracy := JS.mul (JS.div (JS.of_nat (tp k + tn k)) n) (Fin 100) in
  let precision :=
    if JS.gt (JS.of_nat (tp k + fp k)) (Fin 0)
    then JS.mul (JS.div (JS.of_nat (tp k)) (JS.of_nat (tp k + fp k))) (Fin 100)
    else Fin 0 in
  let recall :=
    if JS.gt (JS.of_nat (tp k + fn k)) (Fin 0)
    then JS.mul (JS.div (JS.of_nat (tp k)) (JS.of_nat (tp k + fn k))) (Fin 100)
    else Fin 0 in
  let f1_score :=
    if JS.gt (JS.add precision recall) (Fin 0)
    then JS.div (JS.mul (JS.mul (Fin 2) precision) recall) (JS.add precision recall)
    else Fin 0 in
  mkModelMetrics accuracy precision recall f1_score
    (MathJS.floor (JS.mul n (Fin 0.8)))
    (MathJS.ceil (JS.mul n (Fin 0.2))).

(** The probability that the trained parameters give an example; [train]
    and [predict] both write these steps out. *)
Definition score (this : LoanEligibilityModel) (features : jsobject) : number :=
  let featureNames := Obj.keys features in
  let normalized := normalize (scaler this) featureNames features in
  let logit := linear (weights this) featureNames normalized in
  sigmoid logit.

Definition totalSamples : nat := 5000.

(** [train()]: the outcome, the object after the call, the counter. *)
Definition train (this : LoanEligibilityModel) (c : nat)
  : completion ModelMetrics * LoanEligibilityModel * nat :=
  let '(syntheticData, c) := generateSyntheticData this totalSamples c in
  let splitIndex := MathJS.floor (JS.mul (JS.of_nat totalSamples) (Fin 0.8)) in
  let trainingData := Arr.slice syntheticData (Fin 0) (Some splitIndex) in
  let validationData := Arr.slice syntheticData splitIndex None in
  match trainEnsemble this trainingData c with
  | (Throw e, this, c) => (Throw e, this, c)
  | (Normal _, this, c) =>
      let validationPredictions :=
        map (fun d => score this (engineerFeatures this (applicant d))) validationData in
      let actuals := map approved validationData in
      let m := calculateMetrics validationPredictions actuals in
      (Normal m, mkModel (weights this) (encoders this) (scaler this) m (version this), c)
  end.

Definition toLowerCase (status : EligibilityStatus) : string :=
  match status with
  | Approved => "approved"
  | Rejected => "rejected"
  end.

Definition generateExplanation (status : EligibilityStatus) (topFeatures : list string)
    (features : jsobject) (data : Applicant) : string :=
  let push (cond : bool) (reason : string) (reasons : list string) :=
    if cond then (reasons ++ [reason])%list else reasons in
  let reasons : list string := [] in
  let reasons :=
    match status with
    | Approved =>
        let reasons :=
          push (JS.ge (credit_history data) (Fin 0.7)) "strong credit history" reasons in
        let reasons :=
          push (JS.lt (Obj.get features "loan_to_income_ratio") (Fin 3))
            "healthy loan-to-income ratio" reasons in
        let reasons :=
          push (String.eqb (employment_type data) "salaried") "stable employment" reasons in
        push (JS.gt (income data) (Fin 500000)) "good income level" reasons
    | Rejected =>
        let reasons :=
          push (JS.lt (credit_history data) (Fin 0.5)) "weak credit history" reasons in
        let reasons :=
          push (JS.gt (Obj.get features "loan_to_income_ratio") (Fin 5))
            "high loan-to-income ratio" reasons in
        let reasons :=
          push (JS.gt (Obj.get features "risk_score") (Fin 1000000))
            "elevated risk score" reasons in
        push (JS.gt (dependents data) (Fin 3)) "higher number of dependents" reasons
    end in
  "Application " ++ toLowerCase status ++ " based on " ++ String.concat ", " reasons ++ ".".

(** The attribution table of [predict] before it is ranked: the absolute
    contribution of every feature, then each divided by the total and
    multiplied by 100. *)
Definition attributions (w : gmap string number) (featureNames : list string)
    (normalized : jsobject) : jsobject :=
  let '(feature_attributions, totalContribution) :=
    fold_left
      (fun '(fa, total) name =>
         let contrib :=
           MathJS.abs (JS.mul (Obj.get normalized name) (JS.get_or w name (Fin 0))) in
         (Obj.set name contrib fa, JS.add total contrib))
      featureNames (([] : jsobject), Fin 0) in
  fold_left
    (fun fa name =>
       Obj.set name (JS.mul (JS.div (Obj.get fa name) totalContribution) (Fin 100)) fa)
    (Obj.keys feature_attributions) feature_attributions.

(** The ranking: entries sorted by [(a, b) => b[1] - a[1]], the first five
    kept, each rounded to two decimals into a fresh object. *)
Definition rankAttributions (feature_attributions : jsobject) : jsobject :=
  fold_left
    (fun acc '(key, val) =>
       Obj.set key (JS.div (MathJS.round (JS.mul val (Fin 100))) (Fin 100)) acc)
    (Arr.slice
       (Arr.sort (fun a b => JS.sub (snd b) (snd a)) (Obj.entries feature_attributions))
       (Fin 0) (Some (Fin 5)))
    [].

(** [predict(data)].  The body has no [throw] and calls nothing that can
    throw, so its completion is always normal. *)
Definition predict (this : LoanEligibilityModel) (data : Applicant)
  : completion PredictionResult :=
  let features := engineerFeatures this data in
  let featureNames := Obj.keys features in
  let normalized := normalize (scaler this) featureNames features in
  let logit := linear (weights this) featureNames normalized in
  let probability_approved := sigmoid logit in
  let feature_attributions := attributions (weights this) featureNames normalized in
  let sortedAttributions := rankAttributions feature_attributions in
  let eligibility_status :=
    if JS.ge probability_approved (Fin 0.5) then Approved else Rejected in
  let baseCreditScore := Fin 300 in
  let maxCreditScore := Fin 850 in
  let scoreRange := JS.sub maxCreditScore baseCreditScore in
  let credit_score :=
    MathJS.round (JS.add baseCreditScore (JS.mul probability_approved scoreRange)) in
  let prediction_confidence :=
    MathJS.round
      (JS.mul
         (match eligibility_status with
          | Approved => probability_approved
          | Rejected => JS.sub (Fin 1) probability_approved
          end)
         (Fin 100)) in
  let topFeatures := Arr.slice (Obj.keys sortedAttributions) (Fin 0) (Some (Fin 3)) in
  let explanation := generateExplanation eligibility_status topFeatures features data in
  Normal
    (mkPredictionResult eligibility_status credit_score prediction_confidence
       probability_approved sortedAttributions explanation).

Definition getMetrics (this : LoanEligibilityModel) : ModelMetrics := metrics this.

Definition getVersion (this : LoanEligibilityModel) : string := version this.

(** ** Module level: [globalModel] and its accessors

    The state is the variable [globalModel] ([None] for [null]) and the call
    counter of [Math.random].  The class itself is not exported: callers
    reach a model only through these two functions. *)

Definition getOrCreateModel (globalModel : option LoanEligibilityModel) (c : nat)
  : completion LoanEligibilityModel * option LoanEligibilityModel * nat :=
  match globalModel with
  | Some m => (Normal m, globalModel, c)
  | None =>
      match train constructor c with
      | (Throw e, m, c) => (Throw e, Some m, c)
      | (Normal _, m, c) => (Normal m, Some m, c)
      end
  end.

Definition trainNewModel (globalModel : option LoanEligibilityModel) (c : nat)
  : completion ModelMetrics * option LoanEligibilityModel * nat :=
  match train constructor c with
  | (r, m, c) => (r, Some m, c)
  end.

End Model.

(** ** Display of a prediction ([components/PredictionResult])

    The two helper functions of the component that shows a
    [PredictionResult]; what they return is a CSS class, resp. a label. *)

Definition getCreditScoreColor (score : number) : string :=
  if JS.ge score (Fin 750) then "text-green-600"
  else if JS.ge score (Fin 650) then "text-yellow-600"
  else "text-red-600".

Definition getCreditScoreLabel (score : number) : string :=
  if JS.ge score (Fin 750) then "Excellent"
  else if JS.ge score (Fin 700) then "Good"
  else if JS.ge score (Fin 650) then "Fair"
  else "Poor".

(** ** Bank offers ([services/bankOffersService]) *)

(** A row of the table [bank_offers]. *)
Module BankOffer.

Record t : Type := mk {
  id : string;
  bank_name : string;
  bank_type : string;
  interest_rate : number;
  loan_amount_min : number;
  loan_amount_max : number;
  loan_term_min : number;
  loan_term_max : number;
  processing_fee : number;
  offer_url : string;
  account_opening_url : string;
  last_updated : string;
  is_active : bool
}.

End BankOffer.

Module RankedBankOffer.

Record t : Type := mk {
  bank_name : string;
  bank_type : string;
  interest_rate : number;
  emi_in_INR : number;
  total_payable_in_INR : number;
  processing_fee : number;
  offer_url : string;
  account_opening_url : string;
  has_account_requirement : bool;
  effective_annual_rate : number
}.

End RankedBankOffer.

(** What an awaited query of the database client resolves to: the rows (or
    [null]) and the error (or [null]).  The database is outside the program;
    its answer is an input of the functions below. *)
Module Supabase.

Record response (A : Type) : Type := mk {
  data : option A;
  error : option string
}.

Arguments mk {A} data error.
Arguments data {A} r.
Arguments error {A} r.

End Supabase.

Section Offers.

(** [Math.pow] of the host at the exponents that are not non-negative
    integers; at a non-negative integer the power is the repeated product. *)
Variable Math_pow_other : number -> number -> number.

Definition Math_pow (x y : number) : number :=
  match y with
  | Fin q =>
      if Qle_bool 0 q && Qeq_bool q (inject_Z (Qfloor q))
      then MathJS.pow x (Z.to_nat (Qfloor q))
      else Math_pow_other x y
  | _ => Math_pow_other x y
  end.

Definition calculateEMI (principal annualRate tenureMonths : number) : number :=
  let monthlyRate := JS.div (JS.div annualRate (Fin 12)) (Fin 100) in
  if JS.strict_eq monthlyRate (Fin 0) then JS.div principal tenureMonths
  else
    let emi :=
      JS.div
        (JS.mul (JS.mul principal monthlyRate)
           (Math_pow (JS.add (Fin 1) monthlyRate) tenureMonths))
        (JS.sub (Math_pow (JS.add (Fin 1) monthlyRate) tenureMonths) (Fin 1)) in
    MathJS.round emi.

Definition calculateEffectiveAnnualRate (annualRate processingFeePercent : number) : number :=
  JS.add annualRate (JS.mul processingFeePercent (Fin 0.1)).

(** The callback of [offers.map] in [fetchBankOffers]. *)
Definition rankOffer (loanAmount loanTerm : number) (offer : BankOffer.t)
  : RankedBankOffer.t :=
  let emi := calculateEMI loanAmount (BankOffer.interest_rate offer) loanTerm in
  let totalPayable := JS.mul emi loanTerm in
  let effectiveAnnualRate :=
    calculateEffectiveAnnualRate (BankOffer.interest_rate offer)
      (BankOffer.processing_fee offer) in
  let processingFeeAmount :=
    JS.div (JS.mul loanAmount (BankOffer.processing_fee offer)) (Fin 100) in
  RankedBankOffer.mk
    (BankOffer.bank_name offer)
    (BankOffer.bank_type offer)
    (BankOffer.interest_rate offer)
    emi
    (MathJS.round (JS.add totalPayable processingFeeAmount))
    (BankOffer.processing_fee offer)
    (BankOffer.offer_url offer)
    (BankOffer.account_opening_url offer)
    true
    (JS.div (MathJS.round (JS.mul effectiveAnnualRate (Fin 100))) (Fin 100)).

(** [fetchBankOffers(loanAmount, loanTerm)], given what the query of the
    active offers whose ranges contain the amount and the term resolved to.
    (The message written to the console on an error is not modelled.) *)
Definition fetchBankOffers (resolved : Supabase.response (list BankOffer.t))
    (loanAmount loanTerm : number) : list RankedBankOffer.t :=
  match Supabase.error resolved with
  | Some _ => []
  | None =>
      match Supabase.data resolved with
      | None => []
      | Some offers =>
          if (length offers =? 0)%nat then []
          else
            let rankedOffers := map (rankOffer loanAmount loanTerm) offers in
            Arr.sort
              (fun a b =>
                 JS.sub (RankedBankOffer.effective_annual_rate a)
                   (RankedBankOffer.effective_annual_rate b))
              rankedOffers
      end
  end.

(** [getAllBankOffers()], given what its query resolved to. *)
Definition getAllBankOffers (resolved : Supabase.response (list BankOffer.t))
  : list BankOffer.t :=
  match Supabase.error resolved with
  | Some _ => []
  | None =>
      match Supabase.data resolved with
      | Some rows => rows
      | None => []
      end
  end.

End Offers.

(** ** The application service ([services/predictionService])

    The database is outside the program: what an [insert ... select ...
    single] resolves to is given by a function of the row sent.  The insert
    into [audit_logs] is awaited and its answer ignored, so it has no part
    in the outcome. *)

(** A row of the table [applicants] as the client receives it. *)
Module ApplicantRow.

Record t : Type := mk {
  id : option string;
  fields : Applicant;
  created_at : option string
}.

End ApplicantRow.

(** [Omit<Prediction, 'id' | 'created_at'>], the row sent to [predictions]. *)
Module PredictionData.

Record t : Type := mk {
  applicant_id : option string;
  eligibility_status : EligibilityStatus;
  credit_score : number;
  prediction_confidence : number;
  feature_attributions : jsobject;
  explanation : string;
  model_version : string
}.

End PredictionData.

(** A row of the table [predictions] as the client receives it. *)
Module PredictionRow.

Record t : Type := mk {
  id : option string;
  fields : PredictionData.t;
  created_at : option string
}.

End PredictionRow.

(** What [submitApplication] resolves to. *)
Module Submission.

Record t : Type := mk {
  applicant : ApplicantRow.t;
  prediction : PredictionRow.t;
  predictionResult : PredictionResult
}.

End Submission.

(** [if (error || !data) throw new Error(`Failed to insert <what>:
    ${error?.message}`)], the test that follows both inserts. *)
Definition insertOutcome {A : Type} (what : string) (resolved : Supabase.response A)
  : completion A :=
  match Supabase.error resolved, Supabase.data resolved with
  | Some message, _ => Throw ("Failed to insert " ++ what ++ ": " ++ message)
  | None, None => Throw ("Failed to insert " ++ what ++ ": undefined")
  | None, Some row => Normal row
  end.

Section Service.

Variable Math_exp Math_sqrt : number -> number.
Variable Math_random : nat -> number.
Variable insertApplicant : Applicant -> Supabase.response ApplicantRow.t.
Variable insertPrediction : PredictionData.t -> Supabase.response PredictionRow.t.

(** The object literal [predictionData]. *)
Definition predictionData (applicant : ApplicantRow.t) (model : LoanEligibilityModel)
    (predictionResult : PredictionResult) : PredictionData.t :=
  PredictionData.mk
    (ApplicantRow.id applicant)
    (eligibility_status predictionResult)
    (credit_score predictionResult)
    (prediction_confidence predictionResult)
    (feature_attributions predictionResult)
    (explanation predictionResult)
    (getVersion model).

(** [submitApplication(applicantData)]: the outcome, [globalModel] and the
    call counter of [Math.random] after the call. *)
Definition submitApplication (globalModel : option LoanEligibilityModel) (c : nat)
    (applicantData : Applicant)
  : completion Submission.t * option LoanEligibilityModel * nat :=
  match insertOutcome "applicant" (insertApplicant applicantData) with
  | Throw e => (Throw e, globalModel, c)
  | Normal applicant =>
      match getOrCreateModel Math_exp Math_sqrt Math_random globalModel c with
      | (Throw e, globalModel, c) => (Throw e, globalModel, c)
      | (Normal model, globalModel, c) =>
          match predict Math_exp model applicantData with
          | Throw e => (Throw e, globalModel, c)
          | Normal predictionResult =>
              match insertOutcome "prediction"
                      (insertPrediction (predictionData applicant model predictionResult))
              with
              | Throw e => (Throw e, globalModel, c)
              | Normal prediction =>
                  (Normal (Submission.mk applicant prediction predictionResult),
                   globalModel, c)
              end
          end
      end
  end.

End Service.

(** * Specification-side definitions

    The notions that the statements use: finiteness and order of numbers,
    the formulas of the specification written out next to the code, the
    hypotheses on applicants and models, and a few concrete values on which
    the statements are instantiated. *)

(** ** Numbers *)

Definition is_finite (x : number) : Prop :=
  match x with
  | Fin _ => True
  | _ => False
  end.


(** What is asked of [Math.exp] on a finite argument: a result that is not
    NaN and not negative (it may underflow to 0 or overflow to Infinity). *)
Definition nonneg_or_inf (x : number) : Prop :=
  match x with
  | Fin q => (0 <= q)%Q
  | PosInf => True
  | _ => False
  end.

(** Equality of numbers as values: fractions are compared as rationals. *)
Definition num_eq (x y : number) : Prop :=
  match x, y with
  | NaN, NaN | NegInf, NegInf | PosInf, PosInf => True
  | Fin a, Fin b => (a == b)%Q
  | _, _ => False
  end.

(** [lo <= x <= hi], both comparisons as JavaScript makes them (false on
    NaN). *)
Definition between (lo hi x : number) : Prop :=
  JS.le lo x = true /\ JS.le x hi = true.

(** A share: a finite percentage. *)
Definition percentage (x : number) : Prop := between (Fin 0) (Fin 100) x.

(** ** Applicants and features (sections 3, 4.1 and 4.2) *)

(** The two lookup tables as the specification words them: three, resp.
    four, known keys and the fallback 0.5 for every other key. *)
Definition spec_employment_score (key : string) : number :=
  if String.eqb key "salaried" then Fin 0.8
  else if String.eqb key "self_employed" then Fin 0.5
  else if String.eqb key "business" then Fin 0.6
  else Fin 0.5.

Definition spec_marital_score (key : string) : number :=
  if String.eqb key "married" then Fin 0.7
  else if String.eqb key "single" then Fin 0.5
  else if String.eqb key "divorced" then Fin 0.4
  else if String.eqb key "widowed" then Fin 0.45
  else Fin 0.5.

Definition spec_loan_to_income_ratio (d : Applicant) : number :=
  JS.div (loan_amount d) (JS.add (income d) (Fin 1)).

(** The feature vector as the specification lists it, in the order of
    section 3. *)
Definition spec_features (d : Applicant) : jsobject :=
  [ ("income", income d);
    ("credit_history", credit_history d);
    ("loan_amount", loan_amount d);
    ("loan_term", loan_term d);
    ("dependents", dependents d);
    ("employment_encoded", spec_employment_score (employment_type d));
    ("marital_encoded", spec_marital_score (marital_status d));
    ("loan_to_income_ratio", spec_loan_to_income_ratio d);
    ("monthly_burden", JS.div (JS.mul (loan_amount d) (Fin 0.01)) (loan_term d));
    ("income_per_dependent", JS.div (income d) (JS.add (dependents d) (Fin 1)));
    ("credit_x_income", JS.mul (credit_history d) (income d));
    ("risk_score",
      JS.mul (JS.mul (spec_loan_to_income_ratio d) (JS.sub (Fin 1) (credit_history d)))
        (JS.add (dependents d) (Fin 1))) ].

Definition feature_names : list string :=
  [ "income"; "credit_history"; "loan_amount"; "loan_term"; "dependents";
    "employment_encoded"; "marital_encoded"; "loan_to_income_ratio";
    "monthly_burden"; "income_per_dependent"; "credit_x_income"; "risk_score" ].

(** Every model that the module hands out has the encoder tables that the
    constructor installed: nothing else writes [encoders]. *)
Definition standard_encoders (this : LoanEligibilityModel) : Prop :=
  encoders this = encoders constructor.

(** An applicant profile within the ranges of section 3 of the
    specification (the categorical fields are left free). *)
Definition valid_applicant (d : Applicant) : Prop :=
  exists i c a t k,
    income d = Fin i /\ credit_history d = Fin c /\ loan_amount d = Fin a
    /\ loan_term d = Fin t /\ dependents d = Fin k
    /\ (0 <= i)%Q /\ (0 <= c)%Q /\ (c <= 1)%Q /\ (0 < a)%Q
    /\ (12 <= t)%Q /\ (t <= 360)%Q /\ (0 <= k)%Q.

(** The features of the applicant are all finite numbers. *)
Definition finite_features (d : Applicant) : Prop :=
  forall name, In name feature_names ->
               is_finite (Obj.get (engineerFeatures constructor d) name).

(** ** Scaling parameters (section 4.4) *)

(** Population statistics as the specification words them (section 4.4):
    the values of one feature across all vectors, their mean, and the mean
    of the squared deviations from it. *)
Definition column (features : list jsobject) (name : string) : list number :=
  map (fun f => Obj.get f name) features.

Definition sum (values : list number) : number := fold_left JS.add values (Fin 0).

Definition population_mean (values : list number) : number :=
  JS.div (sum values) (JS.of_nat (length values)).

Definition population_variance (values : list number) : number :=
  JS.div
    (sum (map (fun v => MathJS.pow (JS.sub v (population_mean values)) 2) values))
    (JS.of_nat (length values)).

(** ** Metrics (section 4.6) *)

(** The confusion matrix as the specification words it: predictions are
    thresholded at 0.5 and each example falls in at most one cell. *)
Definition predicted_positive (p : number) : bool := JS.ge p (Fin 0.5).

Definition count_pairs (f : number -> number -> bool) (predictions actuals : list number) : nat :=
  length (List.filter (fun pa => f (fst pa) (snd pa)) (combine predictions actuals)).

Definition spec_tp : list number -> list number -> nat :=
  count_pairs (fun p a => predicted_positive p && JS.strict_eq a (Fin 1)).
Definition spec_fp : list number -> list number -> nat :=
  count_pairs (fun p a => predicted_positive p && JS.strict_eq a (Fin 0)).
Definition spec_tn : list number -> list number -> nat :=
  count_pairs (fun p a => negb (predicted_positive p) && JS.strict_eq a (Fin 0)).
Definition spec_fn : list number -> list number -> nat :=
  count_pairs (fun p a => negb (predicted_positive p) && JS.strict_eq a (Fin 1)).

(** ** Models *)

Definition finite_map (m : gmap string number) : Prop :=
  map_Forall (fun _ v => is_finite v) m.

(** A model whose parameters are numbers: the encoder tables of the
    constructor, and finite weights, means and standard deviations. *)
Definition well_formed_model (m : LoanEligibilityModel) : Prop :=
  standard_encoders m
  /\ finite_map (weights m)
  /\ finite_map (mean (scaler m))
  /\ finite_map (std (scaler m)).

(** The model has a weight, a mean and a standard deviation for each of the
    twelve features. *)
Definition initialized (m : LoanEligibilityModel) : Prop :=
  forall name, In name feature_names ->
    is_Some (weights m !! name)
    /\ is_Some (mean (scaler m) !! name)
    /\ is_Some (std (scaler m) !! name).

(** The invariant of the module variable [globalModel]: [null], or a model
    on which [train] has run. *)
Definition global_inv (globalModel : option LoanEligibilityModel) : Prop :=
  match globalModel with
  | None => True
  | Some m => initialized m /\ standard_encoders m
  end.

(** ** Prediction and attribution (section 4.7) *)

(** The logit that [predict] computes for an applicant. *)
Definition predict_logit (this : LoanEligibilityModel) (d : Applicant) : number :=
  let features := engineerFeatures this d in
  let featureNames := Obj.keys features in
  linear (weights this) featureNames (normalize (scaler this) featureNames features).

(** The normalized feature vector that [predict] computes. *)
Definition predict_normalized (this : LoanEligibilityModel) (d : Applicant) : jsobject :=
  normalize (scaler this) feature_names (engineerFeatures this d).

(** The attribution of section 4.7, as the specification words it: the
    contribution of a feature is |normalized value * weight|, its share is
    the contribution divided by the total of all contributions, as a
    percentage; a share is reported rounded to two decimals. *)
Definition contribution (w : gmap string number) (normalized : jsobject) (name : string)
  : number :=
  MathJS.abs (JS.mul (Obj.get normalized name) (JS.get_or w name (Fin 0))).

Definition total_contribution (w : gmap string number) (names : list string)
    (normalized : jsobject) : number :=
  sum (map (contribution w normalized) names).

Definition share (w : gmap string number) (names : list string) (normalized : jsobject)
    (name : string) : number :=
  JS.mul (JS.div (contribution w normalized name) (total_contribution w names normalized))
    (Fin 100).

Definition round2 (x : number) : number :=
  JS.div (MathJS.round (JS.mul x (Fin 100))) (Fin 100).



(** ** Concrete values *)

(** A rational function with the properties that the theorems below ask of
    [Math.exp]: it is 1 at 0, never negative, and has the limits of the
    exponential at the infinities.  It instantiates them on examples. *)
Definition rational_exp (x : number) : number :=
  match x with
  | NaN => NaN
  | NegInf => Fin 0
  | PosInf => PosInf
  | Fin q => Fin (1 + q + q * q * (1 # 2))
  end.

(** Stand-ins for [Math.sqrt] and [Math.random], to instantiate the
    statements on examples: the integer square root of the integer part,
    and a fixed sequence of values in [0, 1). *)
Definition floor_sqrt (x : number) : number :=
  match x with
  | Fin q => if Qle_bool 0 q then Fin (inject_Z (Z.sqrt (Qfloor q))) else NaN
  | PosInf => PosInf
  | _ => NaN
  end.

Definition example_random (n : nat) : number :=
  Fin (inject_Z (Z.of_nat ((n * 37) mod 100)) / 100).

(** The two end-to-end profiles of section 8 of the specification. *)
Definition applicantA : Applicant :=
  mkApplicant (Fin 1200000) (Fin 0.9) (Fin 1000000) (Fin 240) "salaried" (Fin 1) "married".

Definition applicantB : Applicant :=
  mkApplicant (Fin 150000) (Fin 0.1) (Fin 4000000) (Fin 360) "self_employed" (Fin 4) "single".

(** A small model with finite parameters, for examples. *)
Definition example_model : LoanEligibilityModel :=
  mkModel
    (<["income" := Fin 0.5]>
       (<["credit_history" := Fin 1]> (<["risk_score" := Fin (-0.25)]> ∅)))
    (encoders constructor)
    (mkScaler
       (<["income" := Fin 1000000]> (<["credit_history" := Fin 0.5]> ∅))
       (<["income" := Fin 500000]> (<["credit_history" := Fin 0.25]> ∅)))
    (metrics constructor)
    (version constructor).

(** A profile outside the validated ranges: a loan term of 0 months. *)
Definition applicantZeroTerm : Applicant :=
  mkApplicant (Fin 1200000) (Fin 0.9) (Fin 1000000) (Fin 0) "salaried" (Fin 1) "married".

Definition example_data : list TrainingData :=
  [mkTrainingData applicantA (Fin 1); mkTrainingData applicantB (Fin 0)].

(** The three products behind the split and the reported counts, computed
    in binary64: each is exactly the integer that exact arithmetic gives,
    so [Math.floor] and [Math.ceil] return the same counts on doubles. *)
Module Binary64.

Import PrimFloat.

Definition products_exact : bool :=
  (let p8 := 0x1.999999999999ap-1 in   (* the double that the literal 0.8 denotes *)
   let p2 := 0x1.999999999999ap-3 in   (* the double that the literal 0.2 denotes *)
   eqb (5000 * p8) 4000 && eqb (1000 * p8) 800 && eqb (1000 * p2) 200)%float.

End Binary64.

(** ** Further notions: the database constraints and the offers *)

(** The CHECK constraints of the table [predictions] on a row sent to it
    (the one on [eligibility_status] holds of every value of its type). *)
Definition predictions_check (row : PredictionData.t) : Prop :=
  between (Fin 300) (Fin 850) (PredictionData.credit_score row)
  /\ between (Fin 0) (Fin 100) (PredictionData.prediction_confidence row).

(** The CHECK constraints of the table [model_metrics]. *)
Definition model_metrics_check (m : ModelMetrics) : Prop :=
  percentage (accuracy m) /\ percentage (precision m)
  /\ percentage (recall m) /\ percentage (f1_score m).

(** A label is 0 or 1. *)
Definition binary_label (a : number) : Prop :=
  JS.strict_eq a (Fin 0) = true \/ JS.strict_eq a (Fin 1) = true.

(** The ranges from which [generateSyntheticData] draws an example. *)
Definition generated_example (d : TrainingData) : Prop :=
  exists i c a t k,
    income (applicant d) = Fin i /\ credit_history (applicant d) = Fin c
    /\ loan_amount (applicant d) = Fin a
    /\ num_eq (loan_term (applicant d)) (Fin (inject_Z t))
    /\ num_eq (dependents (applicant d)) (Fin (inject_Z k))
    /\ (200000 <= i)%Q /\ (i < 2000000)%Q
    /\ (0 <= c)%Q /\ (c < 1)%Q
    /\ (100000 <= a)%Q /\ (a < 5000000)%Q
    /\ (12 <= t < 360)%Z
    /\ (0 <= k < 5)%Z
    /\ In (employment_type (applicant d)) ["salaried"; "self_employed"; "business"]
    /\ In (marital_status (applicant d)) ["single"; "married"; "divorced"; "widowed"]
    /\ (approved d = Fin 0 \/ approved d = Fin 1).

(** Ascending order of a numeric key, and the comparator [(a, b) => key(a)
    - key(b)] that sorts by it. *)
Definition ascending {A : Type} (key : A -> number) (a b : A) : Prop :=
  JS.le (key a) (key b) = true.

Definition key_difference {A : Type} (key : A -> number) (a b : A) : number :=
  JS.sub (key a) (key b).

(** Offers in ascending order of effective annual rate. *)
Definition cheaper (a b : RankedBankOffer.t) : Prop :=
  JS.le (RankedBankOffer.effective_annual_rate a) (RankedBankOffer.effective_annual_rate b)
  = true.

Definition finite_rates (o : BankOffer.t) : Prop :=
  is_finite (BankOffer.interest_rate o) /\ is_finite (BankOffer.processing_fee o).

(** The number of draws of one run of [train]: eight per generated example
    and one per initial weight. *)
Definition draws_of_train : nat := 8 * totalSamples + 12.

(** One turn of the counting loop of [calculateMetrics], by cases on the
    thresholded prediction and the label. *)
Definition count_step (p a : number) (k : Confusion) : Confusion :=
  if predicted_positive p
  then if JS.strict_eq a (Fin 1) then mkConfusion (S (tp k)) (fp k) (tn k) (fn k)
       else if JS.strict_eq a (Fin 0) then mkConfusion (tp k) (S (fp k)) (tn k) (fn k)
       else k
  else if JS.strict_eq a (Fin 0) then mkConfusion (tp k) (fp k) (S (tn k)) (fn k)
       else if JS.strict_eq a (Fin 1) then mkConfusion (tp k) (fp k) (tn k) (S (fn k))
       else k.

Definition cells (k : Confusion) : nat := tp k + fp k + tn k + fn k.

(** A prediction on the right side of the threshold for its label. *)
Definition correct_prediction (p a : number) : Prop :=
  (predicted_positive p = true /\ JS.strict_eq a (Fin 1) = true)
  \/ (predicted_positive p = false /\ JS.strict_eq a (Fin 0) = true).

(** A profile that meets none of the four conditions that
    [generateExplanation] tests for the given status (the two engineered
    features written out as [engineerFeatures] computes them). *)
Definition no_reason (status : EligibilityStatus) (d : Applicant) : Prop :=
  let ratio := JS.div (loan_amount d) (JS.add (income d) (Fin 1)) in
  let risk :=
    JS.mul (JS.mul ratio (JS.sub (Fin 1) (credit_history d)))
      (JS.add (dependents d) (Fin 1)) in
  match status with
  | Approved =>
      JS.ge (credit_history d) (Fin 0.7) = false
      /\ JS.lt ratio (Fin 3) = false
      /\ String.eqb (employment_type d) "salaried" = false
      /\ JS.gt (income d) (Fin 500000) = false
  | Rejected =>
      JS.lt (credit_history d) (Fin 0.5) = false
      /\ JS.gt ratio (Fin 5) = false
      /\ JS.gt risk (Fin 1000000) = false
      /\ JS.gt (dependents d) (Fin 3) = false
  end.

(** A self-employed applicant with a middling record and a large loan. *)
Definition applicantPlain : Applicant :=
  mkApplicant (Fin 400000) (Fin 0.6) (Fin 2000000) (Fin 120) "business" (Fin 2) "single".

(** Two rows of the table [bank_offers], and what a query that found them
    resolves to. *)
Definition offerHigh : BankOffer.t :=
  BankOffer.mk "1" "First Bank" "national" (Fin 9.5) (Fin 100000) (Fin 5000000)
    (Fin 12) (Fin 360) (Fin 1) "https://first.example/offer"
    "https://first.example/open" "2025-10-30" true.

Definition offerLow : BankOffer.t :=
  BankOffer.mk "2" "Second Bank" "regional" (Fin 8.75) (Fin 100000) (Fin 5000000)
    (Fin 12) (Fin 360) (Fin 0.5) "https://second.example/offer"
    "https://second.example/open" "2025-10-30" true.

Definition example_response : Supabase.response (list BankOffer.t) :=
  Supabase.mk (Some [offerHigh; offerLow]) None.

(** [Math.pow] is only called at whole exponents in the examples. *)
Definition no_other_pow (x y : number) : number := NaN.

(** What the database answers in the examples: it stores every row. *)
Definition storeApplicant (d : Applicant) : Supabase.response ApplicantRow.t :=
  Supabase.mk (Some (ApplicantRow.mk (Some "applicant-1") d (Some "2025-10-30"))) None.

Definition storePrediction (row : PredictionData.t) : Supabase.response PredictionRow.t :=
  Supabase.mk (Some (PredictionRow.mk (Some "prediction-1") row (Some "2025-10-30"))) None.

Definition refuseApplicant (d : Applicant) : Supabase.response ApplicantRow.t :=
  Supabase.mk None (Some "new row violates row-level security policy").

(** ** Numbers that are not finite, and magnitudes *)



(** A valid applicant whose income, loan amount and number of dependents
    are at most 10^100.  Below this bound no engineered feature leaves the
    range of the doubles: the largest one, risk_score, is at most
    10^100 * 1 * (10^100 + 1). *)
Definition moderate_applicant (d : Applicant) : Prop :=
  valid_applicant d
  /\ exists i a k,
       income d = Fin i /\ loan_amount d = Fin a /\ dependents d = Fin k
       /\ (i <= inject_Z (10 ^ 100))%Q
       /\ (a <= inject_Z (10 ^ 100))%Q
       /\ (k <= inject_Z (10 ^ 100))%Q.


(** ** The numeric core of [predict] in binary64

    The statements of this development are made in exact arithmetic.  The
    module below writes the steps of [predict] that lead to the probability
    and to the attribution table once more, over the primitive binary64
    numbers, to show where doubles leave exact arithmetic behind: a finite
    product can be Infinity, Infinity times 0 is NaN, and so is Infinity
    divided by Infinity. *)
Module Double.

Import PrimFloat.

(** [x || d] on doubles: 0, -0 and NaN are falsy. *)
Definition truthy (x : float) : bool := negb (is_nan x || is_zero x).

Definition or_else (x d : float) : float := if truthy x then x else d.

(** [m.get(k) || d] *)
Definition get_or (m : gmap string float) (k : string) (d : float) : float :=
  match m !! k with
  | Some v => or_else v d
  | None => d
  end.

(** A [Record<string, number>], in insertion order; a missing property is
    [undefined], NaN in arithmetic. *)
Definition jsobject : Type := list (string * float).

Fixpoint set (k : string) (v : float) (o : jsobject) : jsobject :=
  match o with
  | [] => [(k, v)]
  | (k', v') :: o' => if String.eqb k' k then (k, v) :: o' else (k', v') :: set k v o'
  end.

Fixpoint get (o : jsobject) (k : string) : float :=
  match o with
  | [] => nan
  | (k', v) :: o' => if String.eqb k' k then v else get o' k
  end.

Definition keys (o : jsobject) : list string := map fst o.

Record Applicant : Type := mkApplicant {
  income : float;
  credit_history : float;
  loan_amount : float;
  loan_term : float;
  employment_type : string;
  dependents : float;
  marital_status : string
}.

Record Scaler : Type := mkScaler {
  mean : gmap string float;
  std : gmap string float
}.

Record LoanEligibilityModel : Type := mkModel {
  weights : gmap string float;
  encoders : gmap string (gmap string float);
  scaler : Scaler
}.

(** [initializeEncoders()] *)
Definition initializeEncoders (this : LoanEligibilityModel) : LoanEligibilityModel :=
  let encoders :=
    <["employment_type" :=
        list_to_map [("salaried", 8 / 10); ("self_employed", 5 / 10); ("business", 6 / 10)]%float]>
      (encoders this) in
  let encoders :=
    <["marital_status" :=
        list_to_map
          [("married", 7 / 10); ("single", 5 / 10); ("divorced", 4 / 10);
           ("widowed", 45 / 100)]%float]>
      encoders in
  mkModel (weights this) encoders (scaler this).

(** [new LoanEligibilityModel()]: the fields that [predict] reads. *)
Definition constructor : LoanEligibilityModel :=
  initializeEncoders (mkModel ∅ ∅ (mkScaler ∅ ∅)).

(** [this.encoders.get(field)?.get(value) || 0.5] *)
Definition encode (this : LoanEligibilityModel) (field value : string) : float :=
  match encoders this !! field with
  | Some table => get_or table value (5 / 10)%float
  | None => (5 / 10)%float
  end.

Definition engineerFeatures (this : LoanEligibilityModel) (data : Applicant) : jsobject :=
  let features : jsobject := [] in
  let features := set "income" (income data) features in
  let features := set "credit_history" (credit_history data) features in
  let features := set "loan_amount" (loan_amount data) features in
  let features := set "loan_term" (loan_term data) features in
  let features := set "dependents" (dependents data) features in
  let features := set "employment_encoded"
                    (encode this "employment_type" (employment_type data)) features in
  let features := set "marital_encoded"
                    (encode this "marital_status" (marital_status data)) features in
  let features := set "loan_to_income_ratio"
                    (loan_amount data / (income data + 1))%float features in
  let features := set "monthly_burden"
                    ((loan_amount data * (1 / 100)) / loan_term data)%float features in
  let features := set "income_per_dependent"
                    (income data / (dependents data + 1))%float features in
  let features := set "credit_x_income"
                    (credit_history data * income data)%float features in
  let features := set "risk_score"
                    ((loan_amount data / (income data + 1))
                     * (1 - credit_history data) * (dependents data + 1))%float features in
  features.

(** The first loop of [predict]. *)
Definition normalize (sc : Scaler) (featureNames : list string) (features : jsobject)
  : jsobject :=
  fold_left
    (fun normalized name =>
       let mean := get_or (mean sc) name 0%float in
       let std := get_or (std sc) name 1%float in
       set name ((get features name - mean) / std)%float normalized)
    featureNames [].

(** The second loop of [predict]. *)
Definition linear (w : gmap string float) (featureNames : list string)
    (normalized : jsobject) : float :=
  fold_left
    (fun logit name => (logit + get normalized name * get_or w name 0)%float)
    featureNames 0%float.

Definition predict_logit (this : LoanEligibilityModel) (data : Applicant) : float :=
  let features := engineerFeatures this data in
  let featureNames := keys features in
  let normalized := normalize (scaler this) featureNames features in
  linear (weights this) featureNames normalized.

(** The attribution table of [predict] before it is ranked: the third and
    the fourth loop. *)
Definition attributions (w : gmap string float) (featureNames : list string)
    (normalized : jsobject) : jsobject :=
  let '(feature_attributions, totalContribution) :=
    fold_left
      (fun '(fa, total) name =>
         let contrib := abs (get normalized name * get_or w name 0)%float in
         (set name contrib fa, (total + contrib)%float))
      featureNames (([] : jsobject), 0%float) in
  fold_left
    (fun fa name => set name ((get fa name / totalContribution) * 100)%float fa)
    (keys feature_attributions) feature_attributions.


(** [1 / (1 + Math.exp(-logit))] *)
Definition probability_approved (Math_exp : float -> float)
    (this : LoanEligibilityModel) (data : Applicant) : float :=
  (1 / (1 + Math_exp (- predict_logit this data)))%float.


(** [probability_approved >= 0.5] *)
Definition approved (p : float) : bool := leb (5 / 10) p.



Definition finite (x : float) : bool := negb (is_nan x || is_infinity x).

(** The ranges of an applicant profile (section 3 of the specification):
    finite numbers, income >= 0, credit history in [0, 1], loan amount > 0,
    loan term in [12, 360], dependents >= 0. *)
Definition valid_applicant (d : Applicant) : bool :=
  finite (income d) && finite (credit_history d) && finite (loan_amount d)
  && finite (loan_term d) && finite (dependents d)
  && leb 0 (income d) && leb 0 (credit_history d) && leb (credit_history d) 1
  && ltb 0 (loan_amount d) && leb 12 (loan_term d) && leb (loan_term d) 360
  && leb 0 (dependents d).


(** The parameters of [example_model], as doubles. *)
Definition example_model : LoanEligibilityModel :=
  mkModel
    (<["income" := (5 / 10)%float]>
       (<["credit_history" := 1%float]> (<["risk_score" := (- (25 / 100))%float]> ∅)))
    (encoders constructor)
    (mkScaler
       (<["income" := 1000000%float]> (<["credit_history" := (5 / 10)%float]> ∅))
       (<["income" := 500000%float]> (<["credit_history" := (25 / 100)%float]> ∅))).

End Double.

(** * Properties *)

(** ** Order and finiteness of numbers *)

Lemma between_Fin (lo hi x : Q) :
  between (Fin lo) (Fin hi) (Fin x) <-> (lo <= x)%Q /\ (x <= hi)%Q.
Proof.
  unfold between; simpl. rewrite !Qle_bool_iff. tauto.
Qed.

Lemma Qeq_bool_false (a b : Q) : ~ (a == b)%Q -> Qeq_bool a b = false.
Proof.
  intros H. destruct (Qeq_bool a b) eqn:E; [|reflexivity].
  apply Qeq_bool_eq in E. contradiction.
Qed.

Lemma div_Fin (a b : Q) : ~ (b == 0)%Q -> JS.div (Fin a) (Fin b) = Fin (a / b).
Proof.
  intros H. unfold JS.div. now rewrite Qeq_bool_false.
Qed.

Lemma truthy_Fin (x : number) :
  JS.truthy x = true -> is_finite x -> exists q, x = Fin q /\ ~ (q == 0)%Q.
Proof.
  destruct x as [| |q|]; simpl; try tauto.
  intros H _. exists q. split; [reflexivity|].
  apply Qeq_bool_neq. now destruct (Qeq_bool q 0).
Qed.

Lemma or_else_truthy (x d : number) :
  JS.truthy d = true -> JS.truthy (JS.or_else x d) = true.
Proof.
  intros H. unfold JS.or_else. destruct (JS.truthy x) eqn:E; assumption.
Qed.

Lemma or_else_finite (x d : number) :
  is_finite x -> is_finite d -> is_finite (JS.or_else x d).
Proof.
  intros Hx Hd. unfold JS.or_else. destruct (JS.truthy x); assumption.
Qed.

Lemma get_or_truthy (m : gmap string number) (k : string) (d : number) :
  JS.truthy d = true -> JS.truthy (JS.get_or m k d) = true.
Proof.
  intros H. unfold JS.get_or. destruct (m !! k); [now apply or_else_truthy|assumption].
Qed.

Lemma get_or_finite (m : gmap string number) (k : string) (d : number) :
  map_Forall (fun _ v => is_finite v) m -> is_finite d -> is_finite (JS.get_or m k d).
Proof.
  intros Hm Hd. unfold JS.get_or. destruct (m !! k) as [v|] eqn:E; [|assumption].
  apply or_else_finite; [|assumption]. exact (Hm k v E).
Qed.

Lemma get_or_empty (k : string) (d : number) : JS.get_or ∅ k d = d.
Proof.
  unfold JS.get_or. now rewrite lookup_empty.
Qed.

(** ** Feature engineering (sections 4.1 and 4.2 of the specification) *)

Lemma encode_employment (this : LoanEligibilityModel) (key : string) :
  standard_encoders this ->
  encode this "employment_type" key = spec_employment_score key.
Proof.
  unfold standard_encoders, encode, spec_employment_score. intros ->.
  unfold constructor, initializeEncoders; simpl encoders.
  rewrite lookup_insert_ne by discriminate. rewrite lookup_insert_eq.
  unfold JS.get_or. rewrite !lookup_insert, lookup_empty.
  destruct (String.eqb_spec key "salaried") as [->|H1]; [reflexivity|].
  destruct (String.eqb_spec key "self_employed") as [->|H2]; [reflexivity|].
  destruct (String.eqb_spec key "business") as [->|H3]; [reflexivity|].
  repeat case_decide; congruence.
Qed.

Lemma encode_marital (this : LoanEligibilityModel) (key : string) :
  standard_encoders this ->
  encode this "marital_status" key = spec_marital_score key.
Proof.
  unfold standard_encoders, encode, spec_marital_score. intros ->.
  unfold constructor, initializeEncoders; simpl encoders.
  rewrite lookup_insert_eq.
  unfold JS.get_or. rewrite !lookup_insert, lookup_empty.
  destruct (String.eqb_spec key "married") as [->|H1]; [reflexivity|].
  destruct (String.eqb_spec key "single") as [->|H2]; [reflexivity|].
  destruct (String.eqb_spec key "divorced") as [->|H3]; [reflexivity|].
  destruct (String.eqb_spec key "widowed") as [->|H4]; [reflexivity|].
  repeat case_decide; congruence.
Qed.

Lemma engineerFeatures_eq (this : LoanEligibilityModel) (d : Applicant) :
  standard_encoders this -> engineerFeatures this d = spec_features d.
Proof.
  intros H. unfold engineerFeatures, spec_features, spec_loan_to_income_ratio.
  rewrite (encode_employment _ _ H), (encode_marital _ _ H). reflexivity.
Qed.

Lemma engineerFeatures_keys (this : LoanEligibilityModel) (d : Applicant) :
  Obj.keys (engineerFeatures this d) = feature_names.
Proof. reflexivity. Qed.

(** C7.  For every applicant, [engineerFeatures] returns exactly the twelve
    entries of the specification: the five raw fields, the two categorical
    scores (0.8 / 0.5 / 0.6 for salaried / self_employed / business, 0.7 /
    0.5 / 0.4 / 0.45 for married / single / divorced / widowed, 0.5 for any
    other key), and the five derived features with the stated formulas. *)
Theorem engineerFeatures_spec (this : LoanEligibilityModel) (d : Applicant) :
  standard_encoders this ->
  engineerFeatures this d = spec_features d
  /\ length (engineerFeatures this d) = 12%nat
  /\ Obj.keys (engineerFeatures this d) = feature_names
  /\ (forall key,
        key <> "salaried" -> key <> "self_employed" -> key <> "business" ->
        encode this "employment_type" key = Fin 0.5)
  /\ (forall key,
        key <> "married" -> key <> "single" -> key <> "divorced" -> key <> "widowed" ->
        encode this "marital_status" key = Fin 0.5).
Proof.
  intros H. split; [now apply engineerFeatures_eq|].
  split; [reflexivity|]. split; [reflexivity|]. split.
  - intros key H1 H2 H3. rewrite (encode_employment _ _ H).
    unfold spec_employment_score.
    apply String.eqb_neq in H1, H2, H3. now rewrite H1, H2, H3.
  - intros key H1 H2 H3 H4. rewrite (encode_marital _ _ H).
    unfold spec_marital_score.
    apply String.eqb_neq in H1, H2, H3, H4. now rewrite H1, H2, H3, H4.
Qed.

Lemma engineerFeatures_spec_witness :
  engineerFeatures constructor applicantA = spec_features applicantA
  /\ encode constructor "employment_type" "retired" = Fin 0.5.
Proof.
  destruct (engineerFeatures_spec constructor applicantA eq_refl) as (H1 & _ & _ & H2 & _).
  split; [exact H1|]. apply H2; discriminate.
Defined.

(** ** Evaluation metrics (section 4.6) *)

Lemma strict_eq_one_zero (a : number) :
  JS.strict_eq a (Fin 1) = true -> JS.strict_eq a (Fin 0) = false.
Proof.
  destruct a as [| |q|]; simpl; try discriminate.
  intros H. apply Qeq_bool_eq in H. apply Qeq_bool_false. rewrite H. discriminate.
Qed.

Lemma countOutcomes_spec (predictions actuals : list number) (k : Confusion) :
  length predictions = length actuals ->
  countOutcomes predictions actuals k =
    mkConfusion (tp k + spec_tp predictions actuals) (fp k + spec_fp predictions actuals)
      (tn k + spec_tn predictions actuals) (fn k + spec_fn predictions actuals).
Proof.
  revert actuals k. induction predictions as [|p ps IH]; intros actuals k Hlen.
  - destruct k; simpl. unfold spec_tp, spec_fp, spec_tn, spec_fn, count_pairs; simpl.
    now rewrite !Nat.add_0_r.
  - destruct actuals as [|a acts]; [discriminate|]. injection Hlen as Hlen.
    cbn [countOutcomes hd tl]. rewrite IH by assumption.
    unfold spec_tp, spec_fp, spec_tn, spec_fn, count_pairs, predicted_positive.
    cbn [combine List.filter fst snd].
    destruct (JS.ge p (Fin 0.5)); cbn [JS.strict_eq negb andb];
      change (Qeq_bool 1 1) with true; change (Qeq_bool 1 0) with false;
      change (Qeq_bool 0 0) with true; change (Qeq_bool 0 1) with false;
      cbn [andb];
      destruct (JS.strict_eq a (Fin 1)) eqn:E1;
      try rewrite (strict_eq_one_zero a E1);
      try destruct (JS.strict_eq a (Fin 0)) eqn:E0;
      cbn [tp fp tn fn length]; f_equal; lia.
Qed.

(** The four cells are disjoint, so together they count at most every
    example once. *)
Lemma spec_cells_le (predictions actuals : list number) :
  (spec_tp predictions actuals + spec_fp predictions actuals
   + spec_tn predictions actuals + spec_fn predictions actuals <= length predictions)%nat.
Proof.
  unfold spec_tp, spec_fp, spec_tn, spec_fn, count_pairs.
  revert actuals. induction predictions as [|p ps IH]; intros actuals; [simpl; lia|].
  destruct actuals as [|a acts]; [simpl; lia|].
  specialize (IH acts). cbn [combine List.filter fst snd].
  destruct (predicted_positive p); cbn [negb andb];
    destruct (JS.strict_eq a (Fin 1)) eqn:E1;
    try rewrite (strict_eq_one_zero a E1);
    try destruct (JS.strict_eq a (Fin 0)) eqn:E0;
    cbn [length]; lia.
Qed.

Lemma of_nat_gt_0 (k : nat) : JS.gt (JS.of_nat k) (Fin 0) = negb (k =? 0)%nat.
Proof.
  unfold JS.gt, JS.lt, JS.of_nat.
  destruct k as [|k]; [reflexivity|].
  cbn [Nat.eqb negb]. destruct (Qle_bool (inject_Z (Z.of_nat (S k))) 0) eqn:E; [|reflexivity].
  apply Qle_bool_iff in E. unfold Qle in E; simpl in E. lia.
Qed.

Lemma inject_nat_le (a b : nat) :
  (a <= b)%nat -> (inject_Z (Z.of_nat a) <= inject_Z (Z.of_nat b))%Q.
Proof. intros H. rewrite <- Zle_Qle. lia. Qed.

Lemma inject_nat_pos (b : nat) : (0 < b)%nat -> (0 < inject_Z (Z.of_nat b))%Q.
Proof. intros H. change 0%Q with (inject_Z 0). rewrite <- Zlt_Qlt. lia. Qed.

(** A percentage [a / b * 100] with [a <= b] counts lies in [0, 100]. *)
Lemma percentage_bounds (a b : nat) :
  (a <= b)%nat -> (0 < b)%nat ->
  exists q, JS.mul (JS.div (JS.of_nat a) (JS.of_nat b)) (Fin 100) = Fin q
            /\ (0 <= q)%Q /\ (q <= 100)%Q.
Proof.
  intros Hab Hb. unfold JS.of_nat.
  pose proof (inject_nat_pos b Hb) as Hpos.
  pose proof (inject_nat_le a b Hab) as Hle.
  pose proof (inject_nat_le 0 a (Nat.le_0_l a)) as Ha. change (inject_Z (Z.of_nat 0)) with 0%Q in Ha.
  rewrite div_Fin by lra. cbn [JS.mul]. eexists; split; [reflexivity|].
  set (x := inject_Z (Z.of_nat a)) in *. set (y := inject_Z (Z.of_nat b)) in *.
  assert (H0 : (0 <= x / y)%Q) by (apply Qle_shift_div_l; lra).
  assert (H1 : (x / y <= 1)%Q) by (apply Qle_shift_div_r; lra).
  split; lra.
Qed.

(** The harmonic mean of two percentages is a percentage. *)
Lemma f1_bounds (p r : Q) :
  (0 <= p)%Q -> (p <= 100)%Q -> (0 <= r)%Q -> (r <= 100)%Q -> (0 < p + r)%Q ->
  (0 <= 2 * p * r / (p + r))%Q /\ (2 * p * r / (p + r) <= 100)%Q.
Proof.
  intros Hp0 Hp1 Hr0 Hr1 Hs. split.
  - apply Qle_shift_div_l; [assumption|]. nra.
  - apply Qle_shift_div_r; [assumption|]. nra.
Qed.

(** C6.  For predictions and labels of equal length n > 0,
    [calculateMetrics] thresholds at 0.5 and returns
    accuracy = (tp+tn)/n * 100, precision = tp/(tp+fp) * 100 (0 when
    tp+fp = 0), recall = tp/(tp+fn) * 100 (0 when tp+fn = 0) and
    f1 = 2 * precision * recall / (precision + recall) (0 when the sum is
    0); the four values lie in [0, 100]. *)
Theorem calculateMetrics_spec (predictions actuals : list number) :
  length predictions = length actuals ->
  (0 < length predictions)%nat ->
  let m := calculateMetrics predictions actuals in
  let n := length predictions in
  let TP := spec_tp predictions actuals in
  let FP := spec_fp predictions actuals in
  let TN := spec_tn predictions actuals in
  let FN := spec_fn predictions actuals in
  accuracy m = JS.mul (JS.div (JS.of_nat (TP + TN)) (JS.of_nat n)) (Fin 100)
  /\ precision m =
       (if (TP + FP =? 0)%nat then Fin 0
        else JS.mul (JS.div (JS.of_nat TP) (JS.of_nat (TP + FP))) (Fin 100))
  /\ recall m =
       (if (TP + FN =? 0)%nat then Fin 0
        else JS.mul (JS.div (JS.of_nat TP) (JS.of_nat (TP + FN))) (Fin 100))
  /\ f1_score m =
       (if JS.strict_eq (JS.add (precision m) (recall m)) (Fin 0) then Fin 0
        else JS.div (JS.mul (JS.mul (Fin 2) (precision m)) (recall m))
               (JS.add (precision m) (recall m)))
  /\ between (Fin 0) (Fin 100) (accuracy m)
  /\ between (Fin 0) (Fin 100) (precision m)
  /\ between (Fin 0) (Fin 100) (recall m)
  /\ between (Fin 0) (Fin 100) (f1_score m).
Proof.
  intros Hlen Hn m n TP FP TN FN.
  pose proof (spec_cells_le predictions actuals) as Hcells.
  fold TP FP TN FN n in Hcells.
  assert (Hm : m = calculateMetrics predictions actuals) by reflexivity.
  unfold calculateMetrics in Hm.
  rewrite (countOutcomes_spec _ _ _ Hlen) in Hm.
  cbn [tp fp tn fn Nat.add] in Hm. fold TP FP TN FN n in Hm.
  rewrite !of_nat_gt_0 in Hm.
  (* precision and recall are percentages *)
  assert (HP : exists p, precision m = Fin p /\ (0 <= p)%Q /\ (p <= 100)%Q
                         /\ precision m =
                              (if (TP + FP =? 0)%nat then Fin 0
                               else JS.mul (JS.div (JS.of_nat TP) (JS.of_nat (TP + FP))) (Fin 100))).
  { rewrite Hm; cbn [precision].
    destruct (Nat.eqb_spec (TP + FP) 0) as [E|E]; cbn [negb].
    - exists 0%Q. repeat split; try reflexivity; lra.
    - destruct (percentage_bounds TP (TP + FP)) as (q & Hq & H0 & H1); [lia|lia|].
      exists q. rewrite Hq. auto. }
  assert (HR : exists r, recall m = Fin r /\ (0 <= r)%Q /\ (r <= 100)%Q
                         /\ recall m =
                              (if (TP + FN =? 0)%nat then Fin 0
                               else JS.mul (JS.div (JS.of_nat TP) (JS.of_nat (TP + FN))) (Fin 100))).
  { rewrite Hm; cbn [recall].
    destruct (Nat.eqb_spec (TP + FN) 0) as [E|E]; cbn [negb].
    - exists 0%Q. repeat split; try reflexivity; lra.
    - destruct (percentage_bounds TP (TP + FN)) as (q & Hq & H0 & H1); [lia|lia|].
      exists q. rewrite Hq. auto. }
  destruct HP as (p & HPp & Hp0 & Hp1 & HPeq).
  destruct HR as (r & HRr & Hr0 & Hr1 & HReq).
  assert (HF : f1_score m =
                 (if JS.gt (JS.add (precision m) (recall m)) (Fin 0)
                  then JS.div (JS.mul (JS.mul (Fin 2) (precision m)) (recall m))
                         (JS.add (precision m) (recall m))
                  else Fin 0)).
  { rewrite Hm. reflexivity. }
  assert (HA : accuracy m = JS.mul (JS.div (JS.of_nat (TP + TN)) (JS.of_nat n)) (Fin 100)).
  { rewrite Hm. reflexivity. }
  clear Hm.
  split; [exact HA|]. split; [exact HPeq|]. split; [exact HReq|].
  rewrite HF, HA, HPp, HRr. cbn [JS.add JS.mul JS.gt JS.lt JS.strict_eq].
  destruct (Qle_bool (p + r) 0) eqn:Epr; cbn [negb].
  - (* precision + recall = 0 *)
    apply Qle_bool_iff in Epr.
    rewrite (Qeq_eq_bool (p + r) 0) by lra.
    split; [reflexivity|].
    split.
    { destruct (percentage_bounds (TP + TN) n) as (q & Hq & H0 & H1); [lia|assumption|].
      rewrite Hq. apply between_Fin. auto. }
    repeat split; apply Qle_bool_iff; lra.
  - assert (Hpos : (0 < p + r)%Q).
    { apply Qnot_le_lt. intros H. apply Qle_bool_iff in H. congruence. }
    rewrite (Qeq_bool_false (p + r) 0) by lra.
    split; [reflexivity|].
    split.
    { destruct (percentage_bounds (TP + TN) n) as (q & Hq & H0 & H1); [lia|assumption|].
      rewrite Hq. apply between_Fin. auto. }
    rewrite div_Fin by lra.
    destruct (f1_bounds p r Hp0 Hp1 Hr0 Hr1 Hpos) as [H0 H1].
    repeat split; apply Qle_bool_iff; assumption || lra.
Qed.

Lemma calculateMetrics_spec_witness :
  let predictions := [Fin 0.7; Fin 0.2; Fin 0.5; NaN] in
  let actuals := [Fin 1; Fin 0; Fin 0; Fin 1] in
  between (Fin 0) (Fin 100) (f1_score (calculateMetrics predictions actuals)).
Proof.
  intros predictions actuals.
  refine (proj2 (proj2 (proj2 (proj2 (proj2 (proj2 (proj2
    (calculateMetrics_spec predictions actuals eq_refl _))))))));
  simpl; lia.
Defined.

(** ** Objects *)

Lemma Obj_get_set (k j : string) (v : number) (o : jsobject) :
  Obj.get (Obj.set k v o) j = if String.eqb j k then v else Obj.get o j.
Proof.
  induction o as [|[k' v'] o IH]; cbn [Obj.set Obj.get].
  - reflexivity.
  - destruct (String.eqb_spec k k') as [->|Hk]; cbn [Obj.get].
    + destruct (String.eqb j k'); reflexivity.
    + rewrite IH.
      destruct (String.eqb_spec j k') as [->|Hj]; [|reflexivity].
      destruct (String.eqb_spec k' k) as [->|_]; [contradiction|reflexivity].
Qed.

Lemma normalize_get_gen (sc : Scaler) (f : jsobject) (names : list string)
    (acc : jsobject) (name : string) :
  Obj.get
    (fold_left
       (fun normalized name =>
          Obj.set name
            (JS.div (JS.sub (Obj.get f name) (JS.get_or (mean sc) name (Fin 0)))
               (JS.get_or (std sc) name (Fin 1)))
            normalized)
       names acc) name
  = if existsb (String.eqb name) names
    then JS.div (JS.sub (Obj.get f name) (JS.get_or (mean sc) name (Fin 0)))
           (JS.get_or (std sc) name (Fin 1))
    else Obj.get acc name.
Proof.
  revert acc. induction names as [|x xs IH]; intros acc; cbn [fold_left existsb].
  - reflexivity.
  - rewrite IH, Obj_get_set.
    destruct (String.eqb_spec name x) as [->|Hx]; cbn [orb].
    + destruct (existsb (String.eqb x) xs); reflexivity.
    + reflexivity.
Qed.

(** [normalized[name]] is [(f[name] - mean) / std] for each listed name. *)
Lemma normalize_get (sc : Scaler) (f : jsobject) (names : list string) (name : string) :
  In name names ->
  Obj.get (normalize sc names f) name
  = JS.div (JS.sub (Obj.get f name) (JS.get_or (mean sc) name (Fin 0)))
      (JS.get_or (std sc) name (Fin 1)).
Proof.
  intros Hin. unfold normalize. rewrite normalize_get_gen.
  replace (existsb (String.eqb name) names) with true; [reflexivity|].
  symmetry. apply existsb_exists. exists name. split; [assumption|apply String.eqb_refl].
Qed.

(** ** Finiteness along [predict]

    These lemmas are facts of the exact arithmetic, in which a product of
    finite numbers is finite; a product of doubles can overflow.  They
    serve the statements that take a model with finite parameters and a
    valid applicant as given. *)

Lemma add_finite (x y : number) : is_finite x -> is_finite y -> is_finite (JS.add x y).
Proof. destruct x, y; simpl; tauto. Qed.

Lemma sub_finite (x y : number) : is_finite x -> is_finite y -> is_finite (JS.sub x y).
Proof. destruct x, y; simpl; tauto. Qed.

Lemma mul_finite (x y : number) : is_finite x -> is_finite y -> is_finite (JS.mul x y).
Proof. destruct x, y; simpl; tauto. Qed.

Lemma div_finite (x y : number) :
  is_finite x -> is_finite y -> JS.truthy y = true -> is_finite (JS.div x y).
Proof.
  intros Hx Hy Ht. destruct (truthy_Fin y Ht Hy) as (b & -> & Hb).
  destruct x as [| |a|]; try contradiction.
  now rewrite div_Fin.
Qed.

Lemma spec_employment_score_finite (key : string) : is_finite (spec_employment_score key).
Proof.
  unfold spec_employment_score. repeat (destruct (String.eqb _ _); [exact I|]). exact I.
Qed.

Lemma spec_marital_score_finite (key : string) : is_finite (spec_marital_score key).
Proof.
  unfold spec_marital_score. repeat (destruct (String.eqb _ _); [exact I|]). exact I.
Qed.

(** With the "+1" denominators and a loan term of at least 12, every
    feature of a valid applicant is a finite number. *)
Lemma spec_features_finite (d : Applicant) (name : string) :
  valid_applicant d -> In name feature_names -> is_finite (Obj.get (spec_features d) name).
Proof.
  intros (i & c & a & t & k & Hi & Hc & Ha & Ht & Hk & Hr) Hin.
  destruct Hr as (? & ? & ? & ? & ? & ? & ?).
  unfold spec_features, spec_loan_to_income_ratio.
  rewrite Hi, Hc, Ha, Ht, Hk.
  cbn [JS.add JS.sub JS.mul JS.neg].
  rewrite !div_Fin by lra.
  unfold feature_names in Hin.
  repeat (destruct Hin as [<-|Hin]; [cbn; auto using spec_employment_score_finite,
                                        spec_marital_score_finite|]).
  destruct Hin.
Qed.

Lemma normalized_finite (this : LoanEligibilityModel) (d : Applicant) (name : string) :
  well_formed_model this -> valid_applicant d -> In name feature_names ->
  is_finite
    (Obj.get (normalize (scaler this) feature_names (engineerFeatures this d)) name).
Proof.
  intros (Henc & _ & Hmean & Hstd) Hd Hin.
  rewrite normalize_get by assumption. rewrite engineerFeatures_eq by assumption.
  apply div_finite.
  - apply sub_finite; [now apply spec_features_finite|].
    now apply get_or_finite.
  - now apply get_or_finite.
  - now apply get_or_truthy.
Qed.

Lemma linear_finite_from (w : gmap string number) (names : list string) (nz : jsobject)
    (acc : number) :
  finite_map w ->
  is_finite acc ->
  (forall name, In name names -> is_finite (Obj.get nz name)) ->
  is_finite
    (fold_left
       (fun logit name =>
          JS.add logit (JS.mul (Obj.get nz name) (JS.get_or w name (Fin 0))))
       names acc).
Proof.
  intros Hw. revert acc.
  induction names as [|x xs IH]; intros acc Hacc Hnz; cbn [fold_left]; [assumption|].
  apply IH.
  - apply add_finite; [assumption|]. apply mul_finite.
    + apply Hnz. now left.
    + now apply get_or_finite.
  - intros name Hin. apply Hnz. now right.
Qed.

Lemma linear_finite (w : gmap string number) (names : list string) (nz : jsobject) :
  finite_map w ->
  (forall name, In name names -> is_finite (Obj.get nz name)) ->
  is_finite (linear w names nz).
Proof.
  intros Hw Hnz. unfold linear. now apply linear_finite_from.
Qed.

Lemma predict_logit_finite (this : LoanEligibilityModel) (d : Applicant) :
  well_formed_model this -> valid_applicant d -> is_finite (predict_logit this d).
Proof.
  intros Hm Hd. unfold predict_logit. rewrite engineerFeatures_keys.
  apply linear_finite; [apply Hm|].
  intros name Hin. now apply normalized_finite.
Qed.

(** ** Rounding *)

Lemma Qfloor_half (z : Z) : Qfloor (inject_Z z + (1 # 2)) = z.
Proof.
  pose proof (Qfloor_le (inject_Z z + (1 # 2))) as H1.
  pose proof (Qlt_floor (inject_Z z + (1 # 2))) as H2.
  set (f := Qfloor (inject_Z z + (1 # 2))) in *.
  unfold Qle, Qlt, inject_Z, Qplus in *; simpl in *. lia.
Qed.

(** [Math.round] keeps a number between two integers between them. *)
Lemma round_between (lo hi : Z) (q : Q) :
  (inject_Z lo <= q)%Q -> (q <= inject_Z hi)%Q ->
  between (Fin (inject_Z lo)) (Fin (inject_Z hi)) (MathJS.round (Fin q)).
Proof.
  intros Hlo Hhi. cbn [MathJS.round]. apply between_Fin.
  rewrite <- !Zle_Qle. split.
  - rewrite <- (Qfloor_half lo). apply Qfloor_resp_le. lra.
  - rewrite <- (Qfloor_half hi). apply Qfloor_resp_le. lra.
Qed.

Lemma rational_exp_range (q : Q) : nonneg_or_inf (rational_exp (Fin q)).
Proof. cbn. nra. Qed.

Lemma rational_exp_zero (q : Q) : (q == 0)%Q -> num_eq (rational_exp (Fin q)) (Fin 1).
Proof. intros H. cbn. rewrite H. reflexivity. Qed.

(** A valid applicant has finite features. *)
Lemma valid_finite_features (d : Applicant) : valid_applicant d -> finite_features d.
Proof.
  intros Hd name Hin. rewrite engineerFeatures_eq by reflexivity.
  now apply spec_features_finite.
Qed.

Lemma rational_exp_total (x : number) :
  rational_exp x = NaN \/ nonneg_or_inf (rational_exp x).
Proof.
  destruct x as [| |q|]; [left; reflexivity|right..]; cbn; [lra|nra|exact I].
Qed.

(** ** The decision rule, the credit score and the confidence *)

Section Predict.

Variable Math_exp : number -> number.

(** The result of [predict], field by field. *)
Lemma predict_unfold (this : LoanEligibilityModel) (d : Applicant) :
  let p := sigmoid Math_exp (predict_logit this d) in
  let status := if JS.ge p (Fin 0.5) then Approved else Rejected in
  exists fa e,
    predict Math_exp this d =
      Normal
        (mkPredictionResult status
           (MathJS.round (JS.add (Fin 300) (JS.mul p (JS.sub (Fin 850) (Fin 300)))))
           (MathJS.round
              (JS.mul
                 (match status with
                  | Approved => p
                  | Rejected => JS.sub (Fin 1) p
                  end)
                 (Fin 100)))
           p fa e).
Proof.
  intros p status. eexists. eexists. reflexivity.
Qed.

(** [predict] always completes normally. *)
Lemma predict_normal (this : LoanEligibilityModel) (d : Applicant) :
  exists r, predict Math_exp this d = Normal r.
Proof.
  destruct (predict_unfold this d) as (fa & e & H). eauto.
Qed.

(** C3.  For every applicant and every model, [predict] returns the status
    Approved exactly when the probability it returns is at least 0.5; a
    probability equal to 0.5 is Approved. *)
Theorem predict_status_threshold (this : LoanEligibilityModel) (d : Applicant) :
  exists r,
    predict Math_exp this d = Normal r
    /\ (eligibility_status r = Approved <-> JS.ge (probability_approved r) (Fin 0.5) = true)
    /\ (eligibility_status r = Rejected <-> JS.ge (probability_approved r) (Fin 0.5) = false)
    /\ (num_eq (probability_approved r) (Fin 0.5) -> eligibility_status r = Approved).
Proof.
  destruct (predict_unfold this d) as (fa & e & H). cbv zeta in H.
  eexists. split; [exact H|].
  cbn [eligibility_status probability_approved].
  set (p := sigmoid Math_exp (predict_logit this d)).
  split; [|split].
  - destruct (JS.ge p (Fin 0.5)); split; congruence.
  - destruct (JS.ge p (Fin 0.5)); split; congruence.
  - intros Heq. destruct p as [| |q|]; try contradiction.
    cbn in Heq. unfold JS.ge, JS.le.
    replace (Qle_bool 0.5 q) with true; [reflexivity|].
    symmetry. apply Qle_bool_iff. rewrite Heq. apply Qle_refl.
Qed.

Lemma credit_score_formula (p : number) :
  MathJS.round (JS.add (Fin 300) (JS.mul p (JS.sub (Fin 850) (Fin 300))))
  = MathJS.round (JS.add (Fin 300) (JS.mul p (Fin 550))).
Proof.
  destruct p; reflexivity.
Qed.

Lemma between_mono (lo hi lo' hi' : Q) (x : number) :
  (lo' <= lo)%Q -> (hi <= hi')%Q ->
  between (Fin lo) (Fin hi) x -> between (Fin lo') (Fin hi') x.
Proof.
  intros Hlo Hhi. destruct x as [| |q|]; intros [H0 H1]; try discriminate.
  apply between_Fin. cbn [JS.le] in H0, H1. apply Qle_bool_iff in H0, H1. lra.
Qed.

(** The score and the confidence follow the probability that [predict]
    returns, whatever that probability is. *)
Lemma predict_by_probability (this : LoanEligibilityModel) (d : Applicant) :
  exists r,
    predict Math_exp this d = Normal r
    /\ probability_approved r = sigmoid Math_exp (predict_logit this d)
    /\ credit_score r =
         MathJS.round (JS.add (Fin 300) (JS.mul (probability_approved r) (Fin 550)))
    /\ prediction_confidence r =
         match eligibility_status r with
         | Approved => MathJS.round (JS.mul (probability_approved r) (Fin 100))
         | Rejected =>
             MathJS.round (JS.mul (JS.sub (Fin 1) (probability_approved r)) (Fin 100))
         end
    /\ (JS.ge (probability_approved r) (Fin 0.5) = true ->
        prediction_confidence r = MathJS.round (JS.mul (probability_approved r) (Fin 100)))
    /\ (JS.lt (probability_approved r) (Fin 0.5) = true ->
        prediction_confidence r =
          MathJS.round (JS.mul (JS.sub (Fin 1) (probability_approved r)) (Fin 100)))
    /\ (probability_approved r = NaN ->
        eligibility_status r = Rejected
        /\ credit_score r = NaN /\ prediction_confidence r = NaN)
    /\ (between (Fin 0) (Fin 1) (probability_approved r) ->
        between (Fin 50) (Fin 100) (prediction_confidence r)
        /\ match eligibility_status r with
           | Approved => between (Fin 575) (Fin 850) (credit_score r)
           | Rejected => between (Fin 300) (Fin 575) (credit_score r)
           end).
Proof.
  destruct (predict_unfold this d) as (fa & e & H). cbv zeta in H.
  eexists. split; [exact H|].
  cbn [credit_score prediction_confidence probability_approved eligibility_status].
  split; [reflexivity|].
  split; [apply credit_score_formula|].
  set (p := sigmoid Math_exp (predict_logit this d)). clearbody p.
  split; [destruct (JS.ge p (Fin 0.5)); reflexivity|].
  destruct p as [| |q|].
  - split; [intros Hx; discriminate Hx|]. split; [intros Hx; discriminate Hx|].
    split; [intros _; repeat split; reflexivity|].
    intros [Hx _]. discriminate Hx.
  - split; [intros Hx; discriminate Hx|]. split; [intros _; reflexivity|].
    split; [intros Hx; discriminate Hx|].
    intros [Hx _]. discriminate Hx.
  - unfold JS.ge, JS.lt, JS.le.
    destruct (Qle_bool 0.5 q) eqn:E; cbn [negb].
    + apply Qle_bool_iff in E.
      split; [reflexivity|]. split; [discriminate|]. split; [discriminate|].
      intros Hb. apply between_Fin in Hb as [H0 H1].
      cbn [JS.sub JS.neg JS.add JS.mul]. split.
      * apply (round_between 50 100); unfold inject_Z; lra.
      * apply (round_between 575 850); unfold inject_Z; lra.
    + assert (Hlt : (q < 0.5)%Q).
      { apply Qnot_le_lt. intros Hle. apply Qle_bool_iff in Hle. congruence. }
      split; [discriminate|]. split; [reflexivity|]. split; [discriminate|].
      intros Hb. apply between_Fin in Hb as [H0 H1].
      cbn [JS.sub JS.neg JS.add JS.mul]. split.
      * apply (round_between 50 100); unfold inject_Z; lra.
      * apply (round_between 300 575); unfold inject_Z; lra.
  - split; [intros _; reflexivity|]. split; [intros Hx; discriminate Hx|].
    split; [intros Hx; discriminate Hx|].
    intros [_ Hx]. discriminate Hx.
Qed.

Section Range.

Hypothesis Math_exp_range : forall q, nonneg_or_inf (Math_exp (Fin q)).

(** The sigmoid of a finite logit is a probability. *)
Lemma sigmoid_range (x : number) :
  is_finite x ->
  exists p, sigmoid Math_exp x = Fin p /\ (0 <= p)%Q /\ (p <= 1)%Q.
Proof.
  destruct x as [| |q|]; try contradiction. intros _.
  unfold sigmoid. cbn [JS.neg].
  pose proof (Math_exp_range (- q)) as He.
  destruct (Math_exp (Fin (- q))) as [| |e|]; try contradiction; cbn in He.
  - cbn [JS.add]. rewrite div_Fin by lra.
    eexists; split; [reflexivity|]. split.
    + apply Qle_shift_div_l; lra.
    + apply Qle_shift_div_r; lra.
  - cbn. exists 0%Q. split; [reflexivity|]. split; lra.
Qed.

Lemma predict_probability_range (this : LoanEligibilityModel) (d : Applicant) :
  well_formed_model this -> valid_applicant d ->
  exists p, sigmoid Math_exp (predict_logit this d) = Fin p /\ (0 <= p)%Q /\ (p <= 1)%Q.
Proof.
  intros Hm Hd. apply sigmoid_range. now apply predict_logit_finite.
Qed.

End Range.

Section Total.

(** What ECMAScript fixes of [Math.exp] on every argument: the result is
    NaN (for a NaN argument) or is not negative; it may be 0 or
    Infinity. *)
Hypothesis Math_exp_total : forall x, Math_exp x = NaN \/ nonneg_or_inf (Math_exp x).

(** The sigmoid is NaN or a probability. *)
Lemma sigmoid_total (x : number) :
  sigmoid Math_exp x = NaN \/ between (Fin 0) (Fin 1) (sigmoid Math_exp x).
Proof.
  unfold sigmoid. destruct (Math_exp_total (JS.neg x)) as [->|He]; [left; reflexivity|].
  right. destruct (Math_exp (JS.neg x)) as [| |e|]; try contradiction; cbn in He.
  - cbn [JS.add]. rewrite div_Fin by lra. apply between_Fin. split.
    + apply Qle_shift_div_l; lra.
    + apply Qle_shift_div_r; lra.
  - cbn. split; reflexivity.
Qed.



End Total.

Section Zero.

Hypothesis Math_exp_zero : forall q, (q == 0)%Q -> num_eq (Math_exp (Fin q)) (Fin 1).

Lemma sigmoid_zero (q : Q) :
  (q == 0)%Q -> exists p, sigmoid Math_exp (Fin q) = Fin p /\ (p == 0.5)%Q.
Proof.
  intros Hq. unfold sigmoid. cbn [JS.neg].
  assert (Hn : (- q == 0)%Q) by (rewrite Hq; reflexivity).
  pose proof (Math_exp_zero (- q) Hn) as He.
  destruct (Math_exp (Fin (- q))) as [| |e|]; try contradiction. cbn in He.
  cbn [JS.add]. rewrite div_Fin by (rewrite He; discriminate).
  eexists; split; [reflexivity|]. rewrite He. reflexivity.
Qed.

Lemma linear_empty_from (names : list string) (nz : jsobject) (a : Q) :
  (a == 0)%Q ->
  (forall name, In name names -> is_finite (Obj.get nz name)) ->
  exists q,
    fold_left
      (fun logit name =>
         JS.add logit (JS.mul (Obj.get nz name) (JS.get_or ∅ name (Fin 0))))
      names (Fin a) = Fin q
    /\ (q == 0)%Q.
Proof.
  revert a. induction names as [|x xs IH]; intros a Ha Hnz; cbn [fold_left].
  - eauto.
  - rewrite get_or_empty.
    assert (Hx : is_finite (Obj.get nz x)) by (apply Hnz; now left).
    destruct (Obj.get nz x) as [| |v|]; try contradiction.
    cbn [JS.mul JS.add]. apply IH.
    + rewrite Ha. ring.
    + intros name Hin. apply Hnz. now right.
Qed.

(** On the model that the constructor builds, every lookup takes its
    default, so a vector of finite features has logit 0. *)
Lemma predict_logit_untrained (d : Applicant) :
  finite_features d ->
  exists q, predict_logit constructor d = Fin q /\ (q == 0)%Q.
Proof.
  intros Hd. unfold predict_logit. rewrite engineerFeatures_keys.
  unfold linear. change (weights constructor) with (∅ : gmap string number).
  apply linear_empty_from; [reflexivity|].
  intros name Hin. rewrite normalize_get by assumption.
  change (mean (scaler constructor)) with (∅ : gmap string number).
  change (std (scaler constructor)) with (∅ : gmap string number).
  rewrite !get_or_empty.
  specialize (Hd name Hin).
  destruct (Obj.get (engineerFeatures constructor d) name); try contradiction.
  exact I.
Qed.

(** C9 (as the code behaves).  [predict] has no failing path: for every
    model and applicant it completes normally.  On a model that was never
    trained every lookup takes its default (weight 0, mean 0, std 1), and
    for a valid applicant whose amounts are at most 10^100 the call
    returns logit 0, probability_approved = 0.5 and the status Approved. *)
Theorem predict_untrained_defaults (d : Applicant) :
  (forall this d', exists r, predict Math_exp this d' = Normal r)
  /\ (forall name,
        JS.get_or (weights constructor) name (Fin 0) = Fin 0
        /\ JS.get_or (mean (scaler constructor)) name (Fin 0) = Fin 0
        /\ JS.get_or (std (scaler constructor)) name (Fin 1) = Fin 1)
  /\ (moderate_applicant d ->
      exists r,
        predict Math_exp constructor d = Normal r
        /\ probability_approved r = sigmoid Math_exp (predict_logit constructor d)
        /\ num_eq (predict_logit constructor d) (Fin 0)
        /\ num_eq (probability_approved r) (Fin 0.5)
        /\ eligibility_status r = Approved).
Proof.
  split; [intros this d'; apply predict_normal|].
  split; [intros name; repeat split; apply get_or_empty|].
  intros [Hv _]. pose proof (valid_finite_features d Hv) as Hd.
  destruct (predict_unfold constructor d) as (fa & e & H). cbv zeta in H.
  destruct (predict_logit_untrained d Hd) as (q & Hq & Hq0).
  destruct (sigmoid_zero q Hq0) as (p & Hp & Hp5).
  rewrite Hq, Hp in H.
  eexists. split; [exact H|].
  cbn [probability_approved eligibility_status].
  rewrite Hq, Hp. split; [reflexivity|]. split; [exact Hq0|]. split; [exact Hp5|].
  unfold JS.ge, JS.le.
  replace (Qle_bool 0.5 p) with true; [reflexivity|].
  symmetry. apply Qle_bool_iff. rewrite Hp5. apply Qle_refl.
Qed.

End Zero.

End Predict.

Lemma finite_map_empty : finite_map ∅.
Proof. apply map_Forall_empty. Qed.

Lemma finite_map_insert (k : string) (v : number) (m : gmap string number) :
  is_finite v -> finite_map m -> finite_map (<[k := v]> m).
Proof. intros Hv Hm. now apply map_Forall_insert_2. Qed.

Lemma applicantA_valid : valid_applicant applicantA.
Proof.
  exists 1200000%Q, 0.9%Q, 1000000%Q, 240%Q, 1%Q.
  repeat split; try reflexivity; try discriminate.
Qed.

Lemma example_model_well_formed : well_formed_model example_model.
Proof.
  split; [reflexivity|].
  repeat split; cbn [weights scaler mean std example_model];
    repeat apply finite_map_insert; try exact I; apply finite_map_empty.
Qed.

Lemma applicantA_moderate : moderate_applicant applicantA.
Proof.
  split; [exact applicantA_valid|].
  exists 1200000%Q, 1000000%Q, 1%Q.
  repeat split; try reflexivity; apply Qle_bool_iff; vm_compute; reflexivity.
Qed.



Lemma predict_untrained_defaults_witness :
  moderate_applicant applicantA
  /\ exists r,
    predict rational_exp constructor applicantA = Normal r
    /\ num_eq (probability_approved r) (Fin 0.5)
    /\ eligibility_status r = Approved.
Proof.
  destruct (predict_untrained_defaults rational_exp rational_exp_zero applicantA)
    as (_ & _ & H).
  destruct (H applicantA_moderate) as (r & Hr & _ & _ & Hp & Hs).
  split; [exact applicantA_moderate|].
  exists r. auto.
Defined.

(** ** Training: the scaler fit (section 4.4) *)

Section Training.

Variable Math_exp : number -> number.
Variable Math_sqrt : number -> number.
Variable Math_random : nat -> number.

Lemma fold_left_add_map (g : number -> number) (values : list number) (a : number) :
  fold_left (fun a b => JS.add a (g b)) values a = fold_left JS.add (map g values) a.
Proof.
  revert a. induction values as [|v vs IH]; intros a; cbn [fold_left map]; [reflexivity|].
  apply IH.
Qed.

(** The values that [fitFeature] writes are the population statistics. *)
Lemma fitFeature_eq (features : list jsobject) (sc : Scaler) (name : string) :
  fitFeature Math_sqrt features sc name =
    mkScaler
      (<[name := population_mean (column features name)]> (mean sc))
      (<[name := JS.or_else (Math_sqrt (population_variance (column features name)))
                   (Fin 1)]> (std sc)).
Proof.
  unfold fitFeature, population_variance, population_mean, sum, column. cbv zeta.
  rewrite (fold_left_add_map (fun v => MathJS.pow (JS.sub v _) 2)). reflexivity.
Qed.

Lemma fitScaler_lookup_gen (features : list jsobject) (names : list string) (sc : Scaler)
    (name : string) :
  let sc' := fitScaler Math_sqrt features names sc in
  mean sc' !! name =
    (if existsb (String.eqb name) names
     then Some (population_mean (column features name))
     else mean sc !! name)
  /\ std sc' !! name =
       (if existsb (String.eqb name) names
        then Some (JS.or_else (Math_sqrt (population_variance (column features name)))
                     (Fin 1))
        else std sc !! name).
Proof.
  unfold fitScaler. revert sc.
  induction names as [|x xs IH]; intros sc; cbn [fold_left existsb]; [auto|].
  specialize (IH (fitFeature Math_sqrt features sc x)).
  cbv zeta in IH. destruct IH as [IHm IHs]. rewrite IHm, IHs.
  rewrite fitFeature_eq. cbn [mean std].
  destruct (String.eqb_spec name x) as [->|Hx]; cbn [orb].
  - rewrite !lookup_insert_eq. destruct (existsb (String.eqb x) xs); auto.
  - rewrite !lookup_insert_ne by congruence. auto.
Qed.

Lemma existsb_eqb_In (name : string) (names : list string) :
  In name names -> existsb (String.eqb name) names = true.
Proof.
  intros Hin. apply existsb_exists. exists name. split; [assumption|apply String.eqb_refl].
Qed.

Lemma fitScaler_lookup (features : list jsobject) (names : list string) (sc : Scaler)
    (name : string) :
  In name names ->
  mean (fitScaler Math_sqrt features names sc) !! name
    = Some (population_mean (column features name))
  /\ std (fitScaler Math_sqrt features names sc) !! name
     = Some (JS.or_else (Math_sqrt (population_variance (column features name))) (Fin 1)).
Proof.
  intros Hin. pose proof (fitScaler_lookup_gen features names sc name) as H.
  cbv zeta in H. now rewrite (existsb_eqb_In _ _ Hin) in H.
Qed.

(** [trainEnsemble] on a non-empty array completes normally; its scaler is
    the fit over the feature vectors of all the examples, and nothing but
    the weights and the scaler is written. *)
Lemma trainEnsemble_nonempty (this : LoanEligibilityModel) (data : list TrainingData)
    (c : nat) :
  data <> [] ->
  exists w c',
    trainEnsemble Math_exp Math_sqrt Math_random this data c =
      (Normal tt,
       mkModel w (encoders this)
         (fitScaler Math_sqrt
            (map (fun d => engineerFeatures this (applicant d)) data)
            feature_names (scaler this))
         (metrics this) (version this),
       c')
    /\ w = Nat.iter 100
             (epoch Math_exp feature_names
                (map (normalize
                        (fitScaler Math_sqrt
                           (map (fun d => engineerFeatures this (applicant d)) data)
                           feature_names (scaler this))
                        feature_names)
                   (map (fun d => engineerFeatures this (applicant d)) data))
                data)
             (fst (initWeights Math_random feature_names (weights this) c)).
Proof.
  intros Hne. destruct data as [|d0 data]; [congruence|].
  unfold trainEnsemble. cbn [map]. rewrite engineerFeatures_keys.
  destruct (initWeights Math_random feature_names (weights this) c) as [w0 c0] eqn:E.
  eexists. eexists. split; reflexivity.
Qed.

Lemma truthy_not_zero (x : number) : JS.truthy x = true -> JS.strict_eq x (Fin 0) = false.
Proof.
  destruct x as [| |q|]; simpl; try reflexivity; try discriminate.
  now destruct (Qeq_bool q 0).
Qed.

Lemma or_else_zero (x : number) : JS.strict_eq x (Fin 0) = true -> JS.or_else x (Fin 1) = Fin 1.
Proof.
  destruct x as [| |q|]; simpl; try discriminate.
  intros H. unfold JS.or_else. cbn [JS.truthy]. now rewrite H.
Qed.

(** C8.  Fitting the scaler on a non-empty training set stores, for every
    feature name, the population mean and the population standard deviation
    of that feature over all the training vectors; a standard deviation
    that is exactly zero is replaced by 1, so the stored value is never
    zero, and the divisor of the normalisation (value - mean) / std that
    follows is never zero either. *)
Theorem trainEnsemble_scaler (this : LoanEligibilityModel) (data : list TrainingData)
    (c : nat) :
  data <> [] ->
  let features := map (fun d => engineerFeatures this (applicant d)) data in
  exists this' c',
    trainEnsemble Math_exp Math_sqrt Math_random this data c = (Normal tt, this', c')
    /\ forall name, In name feature_names ->
         let values := column features name in
         let sd := Math_sqrt (population_variance values) in
         mean (scaler this') !! name = Some (population_mean values)
         /\ std (scaler this') !! name = Some (JS.or_else sd (Fin 1))
         /\ (JS.strict_eq sd (Fin 0) = true -> std (scaler this') !! name = Some (Fin 1))
         /\ JS.strict_eq (JS.or_else sd (Fin 1)) (Fin 0) = false
         /\ JS.strict_eq (JS.get_or (std (scaler this')) name (Fin 1)) (Fin 0) = false
         /\ forall f,
              Obj.get (normalize (scaler this') feature_names f) name
              = JS.div (JS.sub (Obj.get f name) (JS.get_or (mean (scaler this')) name (Fin 0)))
                  (JS.get_or (std (scaler this')) name (Fin 1)).
Proof.
  intros Hne features.
  destruct (trainEnsemble_nonempty this data c Hne) as (w & c' & H & _).
  eexists. eexists. split; [exact H|].
  intros name Hin values sd. cbn [scaler].
  destruct (fitScaler_lookup features feature_names (scaler this) name Hin) as [Hm Hs].
  fold features. fold values in Hm, Hs. fold sd in Hs.
  split; [exact Hm|]. split; [exact Hs|].
  split; [intros Hz; rewrite Hs; f_equal; now apply or_else_zero|].
  split; [apply truthy_not_zero; now apply or_else_truthy|].
  split; [apply truthy_not_zero; now apply get_or_truthy|].
  intros f. now apply normalize_get.
Qed.

(** ** Training: the split and the reported counts (section 4.6) *)

Lemma generateSyntheticData_length (this : LoanEligibilityModel) (samples c : nat) :
  length (fst (generateSyntheticData Math_random this samples c)) = samples.
Proof.
  revert c. induction samples as [|n IH]; intros c; cbn [generateSyntheticData].
  - reflexivity.
  - specialize (IH (c + 8)%nat).
    destruct (generateSyntheticData Math_random this n (c + 8)) as [data c'].
    cbn [fst length] in *. now rewrite IH.
Qed.

Lemma slice_length {A : Type} (l : list A) (start : number) (stop : option number) :
  length (Arr.slice l start stop) =
    Nat.min
      ((match stop with
        | Some e => Arr.relative_index (length l) e
        | None => length l
        end) - Arr.relative_index (length l) start)
      (length l - Arr.relative_index (length l) start).
Proof.
  unfold Arr.slice. now rewrite length_firstn, length_skipn.
Qed.

Lemma splitIndex_eq : MathJS.floor (JS.mul (JS.of_nat totalSamples) (Fin 0.8)) = Fin 4000.
Proof. vm_compute. reflexivity. Qed.

(** The 80/20 split of 5000 examples: 4000 for training, 1000 held out. *)
Lemma split_lengths {A : Type} (l : list A) :
  length l = totalSamples ->
  length (Arr.slice l (Fin 0) (Some (Fin 4000))) = 4000%nat
  /\ length (Arr.slice l (Fin 4000) None) = 1000%nat.
Proof.
  intros Hl. rewrite !slice_length, Hl.
  split; vm_compute; reflexivity.
Qed.

(** The shape of a run of [train]: the data, the split, the fit on the
    training part, the metrics on the held-out part. *)
Lemma train_shape (this : LoanEligibilityModel) (c : nat) :
  exists data c1 this1 c2,
    generateSyntheticData Math_random this totalSamples c = (data, c1)
    /\ length (Arr.slice data (Fin 0) (Some (Fin 4000))) = 4000%nat
    /\ length (Arr.slice data (Fin 4000) None) = 1000%nat
    /\ trainEnsemble Math_exp Math_sqrt Math_random this
         (Arr.slice data (Fin 0) (Some (Fin 4000))) c1 = (Normal tt, this1, c2)
    /\ let m :=
         calculateMetrics
           (map (fun d => score Math_exp this1 (engineerFeatures this1 (applicant d)))
              (Arr.slice data (Fin 4000) None))
           (map approved (Arr.slice data (Fin 4000) None)) in
       train Math_exp Math_sqrt Math_random this c =
         (Normal m,
          mkModel (weights this1) (encoders this1) (scaler this1) m (version this1),
          c2).
Proof.
  pose proof (generateSyntheticData_length this totalSamples c) as Hlen.
  unfold train. rewrite splitIndex_eq.
  destruct (generateSyntheticData Math_random this totalSamples c) as [data c1].
  cbn [fst] in Hlen.
  destruct (split_lengths data Hlen) as [Htrain Hval].
  assert (Hne : Arr.slice data (Fin 0) (Some (Fin 4000)) <> []).
  { intros H0. rewrite H0 in Htrain. discriminate Htrain. }
  destruct (trainEnsemble_nonempty this _ c1 Hne) as (w & c2 & Ht & _).
  rewrite Ht.
  eexists. eexists. eexists. eexists.
  split; [reflexivity|]. split; [exact Htrain|]. split; [exact Hval|].
  split; [exact Ht|reflexivity].
Qed.

(** C1 (as the code behaves).  [train] always completes normally; it fits
    the model on 4000 examples and evaluates it on the other 1000, but the
    metrics it returns and caches report training_samples = 800 and
    validation_samples = 200: [calculateMetrics] takes 80% and 20% of the
    number of predictions it is given, which is the size of the validation
    split. *)
Theorem train_reported_counts (this : LoanEligibilityModel) (c : nat) :
  let data := fst (generateSyntheticData Math_random this totalSamples c) in
  let splitIndex := MathJS.floor (JS.mul (JS.of_nat totalSamples) (Fin 0.8)) in
  length (Arr.slice data (Fin 0) (Some splitIndex)) = 4000%nat
  /\ length (Arr.slice data splitIndex None) = 1000%nat
  /\ exists m this' c',
       train Math_exp Math_sqrt Math_random this c = (Normal m, this', c')
       /\ getMetrics this' = m
       /\ training_samples m = Fin 800
       /\ validation_samples m = Fin 200.
Proof.
  intros data splitIndex.
  pose proof (generateSyntheticData_length this totalSamples c) as Hlen.
  fold data in Hlen.
  destruct (split_lengths data Hlen) as [Htrain Hval].
  unfold splitIndex. rewrite splitIndex_eq.
  split; [exact Htrain|]. split; [exact Hval|].
  unfold train. rewrite splitIndex_eq.
  destruct (generateSyntheticData Math_random this totalSamples c) as [data' c1] eqn:E.
  cbn [fst] in data. subst data.
  set (trainingData := Arr.slice data' (Fin 0) (Some (Fin 4000))) in *.
  set (validationData := Arr.slice data' (Fin 4000) None) in *.
  assert (Hne : trainingData <> []).
  { intros H0. rewrite H0 in Htrain. discriminate Htrain. }
  destruct (trainEnsemble_nonempty this trainingData c1 Hne) as (w & c2 & Ht & _).
  rewrite Ht.
  eexists. eexists. eexists. split; [reflexivity|].
  split; [reflexivity|].
  unfold calculateMetrics. cbn [training_samples validation_samples].
  rewrite !length_map, Hval. split; vm_compute; reflexivity.
Qed.

(** ** The module accessor (sections 5 and 7) *)

Lemma initWeights_is_Some (names : list string) (w : gmap string number) (c : nat)
    (name : string) :
  is_Some (w !! name) \/ In name names ->
  is_Some (fst (initWeights Math_random names w c) !! name).
Proof.
  unfold initWeights. revert w c.
  induction names as [|x xs IH]; intros w c H; cbn [fold_left].
  - destruct H as [H|[]]. exact H.
  - apply IH. destruct H as [H|[->|H]].
    + left. apply lookup_insert_is_Some'. now right.
    + left. apply lookup_insert_is_Some'. now left.
    + now right.
Qed.

Lemma epoch_is_Some (names : list string) (nf : list jsobject) (data : list TrainingData)
    (w : gmap string number) (name : string) :
  is_Some (w !! name) -> is_Some (epoch Math_exp names nf data w !! name).
Proof.
  unfold epoch. cbv zeta.
  generalize (fold_left (accumulate Math_exp w names) (combine nf data)
                (fold_left (fun g name0 => <[name0 := Fin 0]> g) names ∅)).
  intros gradients. revert w.
  induction names as [|x xs IH]; intros w H; cbn [fold_left]; [exact H|].
  apply IH. apply lookup_insert_is_Some'. now right.
Qed.

Lemma iter_epoch_is_Some (n : nat) (names : list string) (nf : list jsobject)
    (data : list TrainingData) (w : gmap string number) (name : string) :
  is_Some (w !! name) -> is_Some (Nat.iter n (epoch Math_exp names nf data) w !! name).
Proof.
  intros H. induction n as [|n IH]; cbn [Nat.iter nat_rect]; [exact H|].
  now apply epoch_is_Some.
Qed.

(** [train] completes normally and leaves a model with the encoder tables
    it had, and a weight, a mean and a standard deviation for every
    feature. *)
Lemma train_initialized (this : LoanEligibilityModel) (c : nat) :
  exists m this' c',
    train Math_exp Math_sqrt Math_random this c = (Normal m, this', c')
    /\ getMetrics this' = m
    /\ encoders this' = encoders this
    /\ initialized this'.
Proof.
  pose proof (generateSyntheticData_length this totalSamples c) as Hlen.
  unfold train. rewrite splitIndex_eq.
  destruct (generateSyntheticData Math_random this totalSamples c) as [data c1].
  cbn [fst] in Hlen.
  destruct (split_lengths data Hlen) as [Htrain _].
  set (trainingData := Arr.slice data (Fin 0) (Some (Fin 4000))) in *.
  assert (Hne : trainingData <> []).
  { intros H0. rewrite H0 in Htrain. discriminate Htrain. }
  destruct (trainEnsemble_nonempty this trainingData c1 Hne) as (w & c2 & Ht & Hw).
  rewrite Ht.
  eexists. eexists. eexists. split; [reflexivity|].
  split; [reflexivity|]. split; [reflexivity|].
  intros name Hin. cbn [weights scaler]. split.
  - rewrite Hw. apply iter_epoch_is_Some. apply initWeights_is_Some. now right.
  - destruct (fitScaler_lookup
                (map (fun d => engineerFeatures this (applicant d)) trainingData)
                feature_names (scaler this) name Hin) as [Hm Hs].
    rewrite Hm, Hs. split; eexists; reflexivity.
Qed.

(** C2 (as the code behaves).  [predict] has no "not trained" check and
    completes normally on every model, trained or not.  What keeps callers
    away from an untrained model is the module boundary: when [globalModel]
    is [null], [getOrCreateModel] constructs a model and runs [train] on it
    before returning it, and afterwards it returns that same cached model;
    [trainNewModel] likewise stores a model on which [train] has run.  So
    the model that callers get always has weights and scaling parameters
    for the twelve features. *)
Theorem getOrCreateModel_trained (globalModel : option LoanEligibilityModel) (c : nat) :
  global_inv globalModel ->
  (exists m c',
     getOrCreateModel Math_exp Math_sqrt Math_random globalModel c = (Normal m, Some m, c')
     /\ initialized m
     /\ standard_encoders m
     /\ global_inv (Some m)
     /\ (globalModel = None ->
         train Math_exp Math_sqrt Math_random constructor c = (Normal (getMetrics m), m, c'))
     /\ (forall m0, globalModel = Some m0 -> m = m0 /\ c' = c))
  /\ (exists mt m c',
        trainNewModel Math_exp Math_sqrt Math_random globalModel c = (Normal mt, Some m, c')
        /\ global_inv (Some m))
  /\ (forall this d, exists r, predict Math_exp this d = Normal r).
Proof.
  intros Hinv. split; [|split; [|intros this d; apply predict_normal]].
  2:{ unfold trainNewModel.
      destruct (train_initialized constructor c) as (m & this' & c' & Ht & Hm & He & Hi).
      rewrite Ht. exists m, this', c'. split; [reflexivity|]. split; assumption. }
  destruct globalModel as [m0|]; cbn [getOrCreateModel].
  - destruct Hinv as [Hi He].
    exists m0, c. split; [reflexivity|]. split; [exact Hi|]. split; [exact He|].
    split; [split; assumption|]. split; [discriminate|].
    intros m1 H1. injection H1 as ->. split; reflexivity.
  - destruct (train_initialized constructor c) as (m & this' & c' & Ht & Hm & He & Hi).
    rewrite Ht. exists this', c'.
    split; [reflexivity|]. split; [exact Hi|]. split; [exact He|].
    split; [split; assumption|].
    split; [intros _; now rewrite Hm|]. intros m1 H1. discriminate H1.
Qed.

End Training.

(** ** Feature attributions (section 4.7) *)

(** *** Writing an object property by property *)

Lemma Obj_set_fresh (k : string) (v : number) (o : jsobject) :
  ~ In k (Obj.keys o) -> Obj.set k v o = (o ++ [(k, v)])%list.
Proof.
  induction o as [|[k' v'] o IH]; cbn [Obj.set Obj.keys map fst In app]; intros H.
  - reflexivity.
  - destruct (String.eqb_spec k k') as [->|Hk]; [tauto|].
    rewrite IH; [reflexivity|]. unfold Obj.keys. tauto.
Qed.

Lemma Obj_set_middle (k : string) (v v0 : number) (o1 o2 : jsobject) :
  ~ In k (Obj.keys o1) ->
  Obj.set k v (o1 ++ (k, v0) :: o2)%list = (o1 ++ (k, v) :: o2)%list.
Proof.
  induction o1 as [|[k' v'] o1 IH]; cbn [Obj.set Obj.keys map fst In app]; intros H.
  - now rewrite String.eqb_refl.
  - destruct (String.eqb_spec k k') as [->|Hk]; [tauto|].
    rewrite IH; [reflexivity|]. unfold Obj.keys. tauto.
Qed.

Lemma Obj_get_middle (k : string) (v0 : number) (o1 o2 : jsobject) :
  ~ In k (Obj.keys o1) -> Obj.get (o1 ++ (k, v0) :: o2)%list k = v0.
Proof.
  induction o1 as [|[k' v'] o1 IH]; cbn [Obj.get Obj.keys map fst In app]; intros H.
  - now rewrite String.eqb_refl.
  - destruct (String.eqb_spec k k') as [->|Hk]; [tauto|].
    apply IH. unfold Obj.keys. tauto.
Qed.

Lemma keys_app (o1 o2 : jsobject) :
  Obj.keys (o1 ++ o2)%list = (Obj.keys o1 ++ Obj.keys o2)%list.
Proof. unfold Obj.keys. apply map_app. Qed.

(** The first loop of the attribution: one entry per name, in order, and
    the running total. *)
Lemma contributions_fold (c : string -> number) (names : list string) (acc : jsobject)
    (t : number) :
  List.NoDup (Obj.keys acc ++ names)%list ->
  fold_left
    (fun '(fa, total) name => (Obj.set name (c name) fa, JS.add total (c name)))
    names (acc, t)
  = ((acc ++ map (fun name => (name, c name)) names)%list,
     fold_left JS.add (map c names) t).
Proof.
  revert acc t. induction names as [|x xs IH]; intros acc t Hnd; cbn [fold_left map].
  - now rewrite app_nil_r.
  - rewrite Obj_set_fresh.
    + rewrite IH.
      * now rewrite <- app_assoc.
      * rewrite keys_app. cbn [Obj.keys map fst]. now rewrite <- app_assoc.
    + apply List.NoDup_remove_2 in Hnd. intros Hin. apply Hnd.
      apply in_or_app. now left.
Qed.

(** The second loop: every value replaced in place. *)
Lemma rescale_fold (g : number -> number) (rest done : jsobject) :
  List.NoDup (Obj.keys done ++ Obj.keys rest)%list ->
  fold_left (fun fa name => Obj.set name (g (Obj.get fa name)) fa)
    (Obj.keys rest) (done ++ rest)%list
  = (done ++ map (fun kv => (fst kv, g (snd kv))) rest)%list.
Proof.
  revert done. induction rest as [|[k v] rest IH]; intros done Hnd;
    cbn [Obj.keys map fst snd fold_left].
  - reflexivity.
  - assert (Hk : ~ In k (Obj.keys done)).
    { cbn [Obj.keys map fst] in Hnd. apply List.NoDup_remove_2 in Hnd.
      intros Hin. apply Hnd. apply in_or_app. now left. }
    rewrite Obj_get_middle, Obj_set_middle by assumption.
    change (done ++ (k, g v) :: rest)%list with (done ++ [(k, g v)] ++ rest)%list.
    rewrite app_assoc. fold (Obj.keys rest). rewrite IH.
    + now rewrite <- app_assoc.
    + rewrite keys_app. cbn [Obj.keys map fst] in *. now rewrite <- app_assoc.
Qed.

Lemma keys_map_names (c : string -> number) (names : list string) :
  Obj.keys (map (fun name => (name, c name)) names) = names.
Proof.
  unfold Obj.keys. rewrite map_map. cbn [fst]. apply map_id.
Qed.

(** The table that [predict] ranks: every feature with its share. *)
Lemma attributions_eq (w : gmap string number) (names : list string) (nz : jsobject) :
  List.NoDup names ->
  attributions w names nz = map (fun name => (name, share w names nz name)) names.
Proof.
  intros Hnd. unfold attributions.
  change (fun '(fa, total) name =>
            (Obj.set name
               (MathJS.abs (JS.mul (Obj.get nz name) (JS.get_or w name (Fin 0)))) fa,
             JS.add total
               (MathJS.abs (JS.mul (Obj.get nz name) (JS.get_or w name (Fin 0))))))
    with (fun '(fa, total) name =>
            (Obj.set name (contribution w nz name) fa,
             JS.add total (contribution w nz name))).
  rewrite contributions_fold by exact Hnd.
  cbn [app].
  pose proof (rescale_fold
                (fun v => JS.mul (JS.div v (total_contribution w names nz)) (Fin 100))
                (map (fun name => (name, contribution w nz name)) names) []) as H.
  cbn [app] in H. unfold total_contribution, sum in *.
  rewrite H.
  - rewrite map_map. reflexivity.
  - cbn [Obj.keys map app]. fold (Obj.keys (map (fun name => (name, contribution w nz name)) names)).
    now rewrite keys_map_names.
Qed.

(** *** Sorting, slicing and rounding *)

Lemma sort_insert_perm {A : Type} (cmp : A -> A -> number) (x : A) (l : list A) :
  Permutation (Arr.sort_insert cmp x l) (x :: l).
Proof.
  induction l as [|y l IH]; cbn [Arr.sort_insert]; [reflexivity|].
  destruct (JS.gt (cmp x y) (Fin 0)); [|reflexivity].
  rewrite IH. apply perm_swap.
Qed.

Lemma sort_perm {A : Type} (cmp : A -> A -> number) (l : list A) :
  Permutation (Arr.sort cmp l) l.
Proof.
  induction l as [|x l IH]; cbn [Arr.sort]; [reflexivity|].
  rewrite sort_insert_perm. now constructor.
Qed.





Lemma slice_prefix {A : Type} (l : list A) (n : nat) :
  Arr.slice l (Fin 0) (Some (Fin (inject_Z (Z.of_nat n)))) = firstn n l.
Proof.
  unfold Arr.slice.
  assert (H0 : Arr.relative_index (length l) (Fin 0) = 0%nat).
  { change (Arr.relative_index (length l) (Fin 0))
      with (Z.to_nat (Z.min 0 (Z.of_nat (length l)))). lia. }
  assert (Hn : Arr.relative_index (length l) (Fin (inject_Z (Z.of_nat n)))
               = Nat.min n (length l)).
  { unfold Arr.relative_index.
    replace (Qle_bool 0 (inject_Z (Z.of_nat n))) with true.
    - rewrite Qfloor_Z. destruct (Z.ltb_spec (Z.of_nat n) 0); lia.
    - symmetry. apply Qle_bool_iff. change 0%Q with (inject_Z 0).
      rewrite <- Zle_Qle. lia. }
  rewrite H0, Hn, Nat.sub_0_r. change (skipn 0 l) with l.
  destruct (Nat.le_ge_cases n (length l)) as [H|H].
  - now rewrite Nat.min_l.
  - rewrite Nat.min_r by assumption.
    rewrite (firstn_all2 l (n := length l)) by lia.
    now rewrite (firstn_all2 l (n := n)) by lia.
Qed.

Lemma firstn_In {A : Type} (n : nat) (l : list A) (x : A) :
  In x (firstn n l) -> In x l.
Proof.
  revert n. induction l as [|y l IH]; intros [|n]; cbn [firstn In]; try tauto.
  intros [H|H]; [now left|right; eauto].
Qed.


(** The last step: every kept entry rounded into a fresh object. *)
Lemma round_fold (h : number -> number) (l acc : list (string * number)) :
  List.NoDup (Obj.keys acc ++ Obj.keys l)%list ->
  fold_left (fun acc '(key, val) => Obj.set key (h val) acc) l acc
  = (acc ++ map (fun kv => (fst kv, h (snd kv))) l)%list.
Proof.
  revert acc. induction l as [|[k v] l IH]; intros acc Hnd; cbn [fold_left map fst snd].
  - now rewrite app_nil_r.
  - rewrite Obj_set_fresh.
    + rewrite IH.
      * now rewrite <- app_assoc.
      * rewrite keys_app. cbn [Obj.keys map fst] in *. now rewrite <- app_assoc.
    + cbn [Obj.keys map fst] in Hnd. apply List.NoDup_remove_2 in Hnd.
      intros Hin. apply Hnd. apply in_or_app. now left.
Qed.

(** The ranking of a table with distinct keys: sort, keep five, round. *)
Lemma rankAttributions_eq (fa : jsobject) :
  List.NoDup (Obj.keys fa) ->
  rankAttributions fa
  = map (fun kv => (fst kv, round2 (snd kv)))
      (firstn 5 (Arr.sort (fun a b => JS.sub (snd b) (snd a)) fa)).
Proof.
  intros Hnd. unfold rankAttributions, Obj.entries.
  change (Fin 5) with (Fin (inject_Z (Z.of_nat 5))). rewrite slice_prefix.
  change (fun acc '(key, val) =>
            Obj.set key (JS.div (MathJS.round (JS.mul val (Fin 100))) (Fin 100)) acc)
    with (fun acc '(key, val) => Obj.set key (round2 val) acc).
  rewrite round_fold; [reflexivity|].
  cbn [Obj.keys map app].
  set (sorted := Arr.sort _ fa).
  assert (Hp : Permutation (map fst sorted) (map fst fa))
    by (apply Permutation_map, sort_perm).
  assert (Hs : List.NoDup (map fst sorted)).
  { eapply Permutation_NoDup; [symmetry; exact Hp|exact Hnd]. }
  rewrite <- (firstn_skipn 5 sorted), map_app in Hs.
  now apply List.NoDup_app_remove_r in Hs.
Qed.

(** *** Shares are percentages *)

Lemma feature_names_NoDup : List.NoDup feature_names.
Proof.
  unfold feature_names.
  repeat (constructor; [cbn [In]; intuition discriminate|]). constructor.
Qed.


(** *** The shares, whatever the contributions are *)














Section Attributions.

Variable Math_exp : number -> number.

Lemma predict_feature_attributions (this : LoanEligibilityModel) (d : Applicant) :
  exists r,
    predict Math_exp this d = Normal r
    /\ feature_attributions r =
         rankAttributions (attributions (weights this) feature_names (predict_normalized this d)).
Proof.
  eexists. split; reflexivity.
Qed.



End Attributions.

(** * Further properties

    What follows goes beyond the statements above: the generator, the
    bookkeeping of [train], the module accessors, the metrics, the display
    helpers, the ranking of bank offers and the application service. *)

(** ** The generator and the bookkeeping of [train] *)

Section TrainingMore.

Variable Math_exp : number -> number.
Variable Math_sqrt : number -> number.
Variable Math_random : nat -> number.

(** [generateSyntheticData(n)] returns exactly [n] examples, makes exactly
    [8 n] draws, and the example at index [i] is built from the eight draws
    that start at draw [c + 8 i]. *)
Theorem generateSyntheticData_shape (this : LoanEligibilityModel) (samples c : nat) :
  length (fst (generateSyntheticData Math_random this samples c)) = samples
  /\ snd (generateSyntheticData Math_random this samples c) = (c + 8 * samples)%nat
  /\ forall i, (i < samples)%nat ->
       nth_error (fst (generateSyntheticData Math_random this samples c)) i
       = Some (generateSample Math_random this (c + 8 * i)).
Proof.
  revert c. induction samples as [|n IH]; intros c; cbn [generateSyntheticData].
  - split; [reflexivity|]. split; [cbn; lia|]. intros i Hi. lia.
  - destruct (IH (c + 8)%nat) as (Hlen & Hc & Hnth).
    destruct (generateSyntheticData Math_random this n (c + 8)) as [data c'].
    cbn [fst snd length] in *. split; [now rewrite Hlen|]. split; [lia|].
    intros [|i] Hi; cbn [nth_error].
    + do 2 f_equal. lia.
    + rewrite Hnth by lia. do 2 f_equal. lia.
Qed.

Lemma generateSyntheticData_counter (this : LoanEligibilityModel) (samples c : nat) :
  snd (generateSyntheticData Math_random this samples c) = (c + 8 * samples)%nat.
Proof.
  revert c. induction samples as [|n IH]; intros c; cbn [generateSyntheticData].
  - cbn. lia.
  - specialize (IH (c + 8)%nat).
    destruct (generateSyntheticData Math_random this n (c + 8)) as [data c'].
    cbn [snd] in *. lia.
Qed.

Lemma initWeights_counter (names : list string) (w : gmap string number) (c : nat) :
  snd (initWeights Math_random names w c) = (c + length names)%nat.
Proof.
  unfold initWeights. revert w c.
  induction names as [|x xs IH]; intros w c; cbn [fold_left length]; [cbn; lia|].
  rewrite IH. lia.
Qed.

(** What [trainEnsemble] does to the object and to the draw counter. *)
Lemma trainEnsemble_state (this : LoanEligibilityModel) (data : list TrainingData)
    (c : nat) :
  data <> [] ->
  let result := trainEnsemble Math_exp Math_sqrt Math_random this data c in
  fst (fst result) = Normal tt
  /\ snd result = (c + 12)%nat
  /\ encoders (snd (fst result)) = encoders this
  /\ metrics (snd (fst result)) = metrics this
  /\ version (snd (fst result)) = version this.
Proof.
  intros Hne. destruct data as [|d0 data]; [congruence|].
  unfold trainEnsemble. cbn [map]. rewrite engineerFeatures_keys.
  pose proof (initWeights_counter feature_names (weights this) c) as Hc.
  destruct (initWeights Math_random feature_names (weights this) c) as [w0 c0].
  cbn [snd] in Hc. cbv zeta. cbn [fst snd encoders metrics version].
  repeat split. exact Hc.
Qed.

(** [trainEnsemble] throws exactly on an empty training set, and then it
    has changed nothing: the object is as it was and no draw was made. *)
Theorem trainEnsemble_throws_iff (this : LoanEligibilityModel) (data : list TrainingData)
    (c : nat) :
  ((exists e, fst (fst (trainEnsemble Math_exp Math_sqrt Math_random this data c)) = Throw e)
   <-> data = [])
  /\ (data = [] ->
      snd (fst (trainEnsemble Math_exp Math_sqrt Math_random this data c)) = this
      /\ snd (trainEnsemble Math_exp Math_sqrt Math_random this data c) = c).
Proof.
  split; [split|].
  - intros [e He]. destruct data as [|d data]; [reflexivity|].
    destruct (trainEnsemble_nonempty Math_exp Math_sqrt Math_random this (d :: data) c)
      as (w & c' & Ht & _); [discriminate|].
    rewrite Ht in He. discriminate He.
  - intros ->. eexists. reflexivity.
  - intros ->. split; reflexivity.
Qed.

Lemma train_run (this : LoanEligibilityModel) (c : nat) :
  exists m this',
    train Math_exp Math_sqrt Math_random this c = (Normal m, this', (c + draws_of_train)%nat)
    /\ getMetrics this' = m
    /\ encoders this' = encoders this
    /\ getVersion this' = getVersion this
    /\ Z.of_nat draws_of_train = 40012%Z.
Proof.
  destruct (train_shape Math_exp Math_sqrt Math_random this c)
    as (data & c1 & this1 & c2 & Hgen & Htrain & _ & Hte & Ht).
  cbv zeta in Ht.
  pose proof (generateSyntheticData_counter this totalSamples c) as Hc1.
  rewrite Hgen in Hc1. cbn [snd] in Hc1.
  assert (Hne : Arr.slice data (Fin 0) (Some (Fin 4000)) <> []).
  { intros H0. rewrite H0 in Htrain. discriminate Htrain. }
  pose proof (trainEnsemble_state this _ c1 Hne) as Hst. cbv zeta in Hst.
  rewrite Hte in Hst. cbn [fst snd] in Hst.
  destruct Hst as (_ & Hc2 & He & _ & Hv).
  assert (Hcount : c2 = (c + draws_of_train)%nat).
  { rewrite Hc2, Hc1. unfold draws_of_train. lia. }
  rewrite Hcount in Ht.
  eexists. eexists. split; [exact Ht|].
  split; [reflexivity|]. split; [exact He|]. split; [exact Hv|].
  vm_compute. reflexivity.
Qed.

(** The bookkeeping of [train]: it completes normally after exactly
    8 * 5000 + 12 = 40012 draws, returns the metrics it stores in the
    object, and leaves the encoder tables and the version as they were. *)
Theorem train_frame (this : LoanEligibilityModel) (c : nat) :
  exists m this',
    train Math_exp Math_sqrt Math_random this c = (Normal m, this', (c + draws_of_train)%nat)
    /\ getMetrics this' = m
    /\ encoders this' = encoders this
    /\ getVersion this' = getVersion this
    /\ Z.of_nat draws_of_train = 40012%Z.
Proof.
  exact (train_run this c).
Qed.

(** *** The module accessors *)

(** [getOrCreateModel] is idempotent: whatever the state, a second call
    returns the model of the first, makes no draw and leaves [globalModel]
    as the first call left it. *)
Theorem getOrCreateModel_idempotent (globalModel : option LoanEligibilityModel) (c : nat) :
  exists m c1,
    getOrCreateModel Math_exp Math_sqrt Math_random globalModel c = (Normal m, Some m, c1)
    /\ getOrCreateModel Math_exp Math_sqrt Math_random (Some m) c1 = (Normal m, Some m, c1)
    /\ (globalModel = None -> c1 = (c + draws_of_train)%nat)
    /\ (globalModel <> None -> c1 = c).
Proof.
  destruct globalModel as [m0|]; cbn [getOrCreateModel].
  - exists m0, c. repeat split; congruence.
  - destruct (train_run constructor c) as (m & this' & Ht & _).
    rewrite Ht. exists this', (c + draws_of_train)%nat. repeat split; congruence.
Qed.

(** [trainNewModel] retrains whatever is cached: it ignores the current
    [globalModel], makes 40012 draws, and stores a new model whose cached
    metrics are the ones it returns; [getOrCreateModel] then hands out that
    model. *)
Theorem trainNewModel_replaces (globalModel : option LoanEligibilityModel) (c : nat) :
  exists mt m,
    trainNewModel Math_exp Math_sqrt Math_random globalModel c
      = (Normal mt, Some m, (c + draws_of_train)%nat)
    /\ getMetrics m = mt
    /\ trainNewModel Math_exp Math_sqrt Math_random globalModel c
       = trainNewModel Math_exp Math_sqrt Math_random None c
    /\ getOrCreateModel Math_exp Math_sqrt Math_random (Some m) (c + draws_of_train)
       = (Normal m, Some m, (c + draws_of_train)%nat).
Proof.
  unfold trainNewModel.
  destruct (train_run constructor c) as (m & this' & Ht & Hm & _).
  rewrite Ht. exists m, this'. repeat split; assumption || reflexivity.
Qed.

End TrainingMore.

(** ** What the generator produces *)

Section GeneratedMore.

Variable Math_exp : number -> number.
Variable Math_sqrt : number -> number.
Variable Math_random : nat -> number.

Hypothesis Math_random_range :
  forall n, exists q, Math_random n = Fin q /\ (0 <= q)%Q /\ (q < 1)%Q.

Lemma floor_index (r : Q) (n : Z) :
  (0 <= r)%Q -> (r < 1)%Q -> (0 < n)%Z ->
  (0 <= Qfloor (r * inject_Z n) < n)%Z.
Proof.
  intros H0 H1 Hn.
  assert (Hpos : (0 < inject_Z n)%Q) by (change 0%Q with (inject_Z 0); now rewrite <- Zlt_Qlt).
  split.
  - change 0%Z with (Qfloor 0). apply Qfloor_resp_le. nra.
  - pose proof (Qfloor_le (r * inject_Z n)) as Hle.
    assert (Hlt : (inject_Z (Qfloor (r * inject_Z n)) < inject_Z n)%Q) by nra.
    now rewrite <- Zlt_Qlt in Hlt.
Qed.

(** Indexing an array with the floor of [random * length] hits an element. *)
Lemma Arr_get_floor (l : list string) (z : Z) :
  (0 <= z < Z.of_nat (length l))%Z ->
  In (Arr.get l (Fin (inject_Z z))) l.
Proof.
  intros Hz. unfold Arr.get. rewrite Qfloor_Z.
  replace (Qle_bool 0 (inject_Z z)) with true.
  - rewrite Qeq_bool_refl. cbn [andb]. apply nth_In. lia.
  - symmetry. apply Qle_bool_iff. change 0%Q with (inject_Z 0). rewrite <- Zle_Qle. lia.
Qed.

Lemma generateSample_ranges (this : LoanEligibilityModel) (c : nat) :
  generated_example (generateSample Math_random this c).
Proof.
  unfold generateSample. cbv zeta.
  destruct (Math_random_range c) as (r0 & -> & Hr0 & Hr0').
  destruct (Math_random_range (c + 1)) as (r1 & -> & Hr1 & Hr1').
  destruct (Math_random_range (c + 2)) as (r2 & -> & Hr2 & Hr2').
  destruct (Math_random_range (c + 3)) as (r3 & -> & Hr3 & Hr3').
  destruct (Math_random_range (c + 4)) as (r4 & -> & Hr4 & Hr4').
  destruct (Math_random_range (c + 5)) as (r5 & -> & Hr5 & Hr5').
  destruct (Math_random_range (c + 6)) as (r6 & -> & Hr6 & Hr6').
  unfold generated_example. cbn [applicant approved].
  cbn [income credit_history loan_amount loan_term dependents employment_type
       marital_status].
  cbn [JS.mul JS.add MathJS.floor JS.of_nat length].
  pose proof (floor_index r3 348 Hr3 Hr3' eq_refl) as H3.
  pose proof (floor_index r4 3 Hr4 Hr4' eq_refl) as H4.
  pose proof (floor_index r5 5 Hr5 Hr5' eq_refl) as H5.
  pose proof (floor_index r6 4 Hr6 Hr6' eq_refl) as H6.
  exists (200000 + r0 * 1800000)%Q, r1, (100000 + r2 * 4900000)%Q,
    (12 + Qfloor (r3 * inject_Z 348))%Z, (Qfloor (r5 * inject_Z 5)).
  split; [reflexivity|]. split; [reflexivity|]. split; [reflexivity|].
  split; [cbn [num_eq]; rewrite inject_Z_plus; reflexivity|].
  split; [cbn [num_eq]; reflexivity|].
  split; [lra|]. split; [lra|]. split; [lra|]. split; [lra|].
  split; [lra|]. split; [lra|]. split; [lia|]. split; [lia|].
  split; [apply Arr_get_floor; cbn [length]; exact H4|].
  split; [apply Arr_get_floor; cbn [length]; exact H6|].
  match goal with |- context [if ?b then _ else _] => destruct b end; auto.
Qed.

(** Every example that [generateSyntheticData] returns lies in the ranges
    the generator draws from: income in [200000, 2000000), credit history
    in [0, 1), loan amount in [100000, 5000000), a whole number of months in
    [12, 360), a whole number of dependents in [0, 5), one of the three
    employment types and of the four marital statuses, and a label 0 or 1. *)
Theorem generateSyntheticData_ranges (this : LoanEligibilityModel) (samples c : nat) :
  Forall generated_example (fst (generateSyntheticData Math_random this samples c)).
Proof.
  revert c. induction samples as [|n IH]; intros c; cbn [generateSyntheticData].
  - constructor.
  - specialize (IH (c + 8)%nat).
    destruct (generateSyntheticData Math_random this n (c + 8)) as [data c'].
    cbn [fst] in *. constructor; [apply generateSample_ranges|exact IH].
Qed.

End GeneratedMore.

(** ** More on the metrics *)

Lemma countOutcomes_cons (p : number) (predictions actuals : list number) (k : Confusion) :
  countOutcomes (p :: predictions) actuals k
  = countOutcomes predictions (tl actuals) (count_step p (hd NaN actuals) k).
Proof.
  cbn [countOutcomes]. f_equal. unfold count_step, predicted_positive.
  generalize (hd NaN actuals) as a. intros a.
  destruct (JS.ge p (Fin 0.5)); cbn [JS.strict_eq andb];
    change (Qeq_bool 1 1) with true; change (Qeq_bool 1 0) with false;
    change (Qeq_bool 0 0) with true; change (Qeq_bool 0 1) with false;
    cbn [andb];
    destruct (JS.strict_eq a (Fin 1)), (JS.strict_eq a (Fin 0)); reflexivity.
Qed.

Lemma count_step_cells (p a : number) (k : Confusion) :
  (cells k <= cells (count_step p a k) <= S (cells k))%nat
  /\ (binary_label a -> cells (count_step p a k) = S (cells k)).
Proof.
  unfold count_step, cells, binary_label.
  destruct (predicted_positive p), (JS.strict_eq a (Fin 1)) eqn:E1,
    (JS.strict_eq a (Fin 0)) eqn:E0; cbn [tp fp tn fn];
    (split; [lia|intros [H|H]; try discriminate; try lia]).
Qed.

(** Every example falls in at most one cell of the confusion matrix, and a
    label that is neither 0 nor 1, or is missing, puts its example in none. *)
Lemma countOutcomes_cells_le (predictions actuals : list number) (k : Confusion) :
  (cells (countOutcomes predictions actuals k) <= cells k + length predictions)%nat.
Proof.
  revert actuals k. induction predictions as [|p ps IH]; intros actuals k.
  - cbn. lia.
  - rewrite countOutcomes_cons. specialize (IH (tl actuals) (count_step p (hd NaN actuals) k)).
    pose proof (count_step_cells p (hd NaN actuals) k) as [[_ H] _]. cbn [length]. lia.
Qed.

(** With one label 0 or 1 for every prediction, the four cells of the
    confusion matrix of [calculateMetrics] partition the examples. *)
Theorem countOutcomes_partition (predictions actuals : list number) :
  length predictions = length actuals ->
  Forall binary_label actuals ->
  let k := countOutcomes predictions actuals (mkConfusion 0 0 0 0) in
  (tp k + fp k + tn k + fn k)%nat = length predictions.
Proof.
  intros Hlen Hbin.
  enough (H : forall k, cells (countOutcomes predictions actuals k)
                        = (cells k + length predictions)%nat)
    by (cbv zeta; exact (H (mkConfusion 0 0 0 0))).
  revert actuals Hlen Hbin. induction predictions as [|p ps IH]; intros actuals Hlen Hbin k.
  - cbn [countOutcomes length]. lia.
  - destruct actuals as [|a acts]; [discriminate|]. injection Hlen as Hlen.
    apply Forall_cons_iff in Hbin as [Ha Hacts].
    rewrite countOutcomes_cons. cbn [hd tl length].
    rewrite (IH acts Hlen Hacts).
    pose proof (count_step_cells p a k) as [_ H]. rewrite (H Ha). lia.
Qed.

Lemma countOutcomes_no_positive (predictions actuals : list number) (k : Confusion) :
  Forall (fun p => predicted_positive p = false) predictions ->
  tp (countOutcomes predictions actuals k) = tp k
  /\ fp (countOutcomes predictions actuals k) = fp k.
Proof.
  revert actuals k. induction predictions as [|p ps IH]; intros actuals k Hneg.
  - cbn. auto.
  - apply Forall_cons_iff in Hneg as [Hp Hps].
    rewrite countOutcomes_cons.
    destruct (IH (tl actuals) (count_step p (hd NaN actuals) k) Hps) as [-> ->].
    unfold count_step. rewrite Hp.
    destruct (JS.strict_eq (hd NaN actuals) (Fin 0)),
      (JS.strict_eq (hd NaN actuals) (Fin 1)); cbn [tp fp]; auto.
Qed.

Lemma ratio_zero (b : nat) :
  (0 < b)%nat ->
  exists r, JS.mul (JS.div (JS.of_nat 0) (JS.of_nat b)) (Fin 100) = Fin r /\ (r == 0)%Q.
Proof.
  intros Hb. pose proof (inject_nat_pos b Hb) as Hpos.
  unfold JS.of_nat. rewrite div_Fin by lra.
  cbn [JS.mul]. eexists. split; [reflexivity|].
  change (inject_Z (Z.of_nat 0)) with 0%Q. unfold Qdiv. ring.
Qed.

(** When no prediction reaches the threshold 0.5, [calculateMetrics]
    reports precision 0, recall 0 and f1 0, whatever the labels are. *)
Theorem calculateMetrics_no_positive (predictions actuals : list number) :
  Forall (fun p => JS.ge p (Fin 0.5) = false) predictions ->
  let m := calculateMetrics predictions actuals in
  precision m = Fin 0 /\ num_eq (recall m) (Fin 0) /\ f1_score m = Fin 0.
Proof.
  intros Hneg m.
  assert (Hm : m = calculateMetrics predictions actuals) by reflexivity.
  unfold calculateMetrics in Hm.
  destruct (countOutcomes_no_positive predictions actuals (mkConfusion 0 0 0 0) Hneg)
    as [Htp Hfp]. cbn [tp fp] in Htp, Hfp.
  set (k := countOutcomes predictions actuals (mkConfusion 0 0 0 0)) in *.
  rewrite Htp, Hfp in Hm. rewrite !of_nat_gt_0 in Hm.
  cbn [Nat.add Nat.eqb negb] in Hm.
  assert (HP : precision m = Fin 0) by (rewrite Hm; reflexivity).
  assert (HR : exists r, recall m = Fin r /\ (r == 0)%Q).
  { rewrite Hm; cbn [recall]. destruct (fn k) as [|n] eqn:E; cbn [Nat.eqb negb].
    - exists 0%Q. split; reflexivity.
    - exact (ratio_zero (S n) ltac:(lia)). }
  destruct HR as (r & HR & Hr0).
  split; [exact HP|]. split; [rewrite HR; exact Hr0|].
  assert (HF : f1_score m =
                 (if JS.gt (JS.add (precision m) (recall m)) (Fin 0)
                  then JS.div (JS.mul (JS.mul (Fin 2) (precision m)) (recall m))
                         (JS.add (precision m) (recall m))
                  else Fin 0)) by (rewrite Hm; reflexivity).
  rewrite HF, HP, HR. cbn [JS.add JS.gt JS.lt].
  replace (Qle_bool (0 + r) 0) with true; [reflexivity|].
  symmetry. apply Qle_bool_iff. lra.
Qed.

Lemma countOutcomes_correct (predictions actuals : list number) (k : Confusion) :
  Forall2 correct_prediction predictions actuals ->
  let k' := countOutcomes predictions actuals k in
  (tp k' + tn k')%nat = (tp k + tn k + length predictions)%nat
  /\ fp k' = fp k /\ fn k' = fn k.
Proof.
  intros H. revert k. induction H as [|p a ps acts Hpa _ IH]; intros k.
  - cbn. repeat split; lia.
  - rewrite countOutcomes_cons. cbn [hd tl length]. cbv zeta in *.
    destruct (IH (count_step p a k)) as (H1 & -> & ->). rewrite H1.
    unfold count_step.
    destruct Hpa as [[Hp Ha]|[Hp Ha]]; rewrite Hp.
    + rewrite Ha. cbn [tp fp tn fn]. repeat split; lia.
    + rewrite Ha. cbn [tp fp tn fn]. repeat split; lia.
Qed.

(** When every prediction is on the right side of the threshold for its
    label, [calculateMetrics] reports an accuracy of 100. *)
Theorem calculateMetrics_all_correct (predictions actuals : list number) :
  predictions <> [] ->
  Forall2 correct_prediction predictions actuals ->
  num_eq (accuracy (calculateMetrics predictions actuals)) (Fin 100).
Proof.
  intros Hne Hall.
  destruct (countOutcomes_correct predictions actuals (mkConfusion 0 0 0 0) Hall)
    as (H & _ & _). cbn [tp tn Nat.add] in H.
  unfold calculateMetrics. cbn [accuracy]. rewrite H.
  assert (Hn : (0 < length predictions)%nat) by (destruct predictions; [congruence|cbn; lia]).
  pose proof (inject_nat_pos _ Hn) as Hpos.
  unfold JS.of_nat. rewrite div_Fin by lra. cbn [JS.mul num_eq]. field. lra.
Qed.

Lemma calculateMetrics_accuracy_percentage (predictions actuals : list number) :
  predictions <> [] -> percentage (accuracy (calculateMetrics predictions actuals)).
Proof.
  intros Hne. unfold calculateMetrics. cbn [accuracy].
  pose proof (countOutcomes_cells_le predictions actuals (mkConfusion 0 0 0 0)) as Hle.
  unfold cells in Hle. cbn [tp fp tn fn Nat.add] in Hle.
  assert (Hn : (0 < length predictions)%nat) by (destruct predictions; [congruence|cbn; lia]).
  destruct (percentage_bounds
              (tp (countOutcomes predictions actuals (mkConfusion 0 0 0 0))
               + tn (countOutcomes predictions actuals (mkConfusion 0 0 0 0)))
              (length predictions)) as (q & -> & H0 & H1); [lia|exact Hn|].
  apply between_Fin. auto.
Qed.

(** The accuracy that [calculateMetrics] reports is NaN exactly on an empty
    list of predictions (0 / 0); on a non-empty list it is a percentage,
    also when labels are missing or are not 0 or 1. *)
Theorem calculateMetrics_accuracy_nan (predictions actuals : list number) :
  (accuracy (calculateMetrics predictions actuals) = NaN <-> predictions = [])
  /\ (predictions <> [] -> percentage (accuracy (calculateMetrics predictions actuals))).
Proof.
  split; [split|apply calculateMetrics_accuracy_percentage].
  - intros Hnan. destruct predictions as [|p ps]; [reflexivity|].
    assert (Hne : p :: ps <> []) by discriminate.
    pose proof (calculateMetrics_accuracy_percentage (p :: ps) actuals Hne) as Hfin.
    rewrite Hnan in Hfin. destruct Hfin as [H _]. discriminate H.
  - intros ->. reflexivity.
Qed.

(** Precision and recall are always percentages, and f1 is their harmonic
    mean, whatever the two lists hold. *)
Lemma calculateMetrics_rates (predictions actuals : list number) :
  let m := calculateMetrics predictions actuals in
  exists p r,
    precision m = Fin p /\ recall m = Fin r
    /\ (0 <= p)%Q /\ (p <= 100)%Q /\ (0 <= r)%Q /\ (r <= 100)%Q
    /\ f1_score m = (if Qle_bool (p + r) 0 then Fin 0 else Fin (2 * p * r / (p + r))).
Proof.
  intros m.
  assert (Hm : m = calculateMetrics predictions actuals) by reflexivity.
  unfold calculateMetrics in Hm.
  set (k := countOutcomes predictions actuals (mkConfusion 0 0 0 0)) in *.
  clearbody k. rewrite !of_nat_gt_0 in Hm.
  assert (HP : exists p, precision m = Fin p /\ (0 <= p)%Q /\ (p <= 100)%Q).
  { rewrite Hm; cbn [precision].
    destruct (Nat.eqb_spec (tp k + fp k) 0) as [E|E]; cbn [negb].
    - exists 0%Q. repeat split; try reflexivity; lra.
    - destruct (percentage_bounds (tp k) (tp k + fp k)) as (q & Hq & H0 & H1); [lia|lia|].
      exists q. rewrite Hq. auto. }
  assert (HR : exists r, recall m = Fin r /\ (0 <= r)%Q /\ (r <= 100)%Q).
  { rewrite Hm; cbn [recall].
    destruct (Nat.eqb_spec (tp k + fn k) 0) as [E|E]; cbn [negb].
    - exists 0%Q. repeat split; try reflexivity; lra.
    - destruct (percentage_bounds (tp k) (tp k + fn k)) as (q & Hq & H0 & H1); [lia|lia|].
      exists q. rewrite Hq. auto. }
  destruct HP as (p & HPp & Hp0 & Hp1).
  destruct HR as (r & HRr & Hr0 & Hr1).
  assert (HF : f1_score m =
                 (if JS.gt (JS.add (precision m) (recall m)) (Fin 0)
                  then JS.div (JS.mul (JS.mul (Fin 2) (precision m)) (recall m))
                         (JS.add (precision m) (recall m))
                  else Fin 0)).
  { rewrite Hm. reflexivity. }
  exists p, r. repeat (split; [assumption|]).
  rewrite HF, HPp, HRr. cbn [JS.add JS.mul JS.gt JS.lt].
  destruct (Qle_bool (p + r) 0) eqn:Epr; cbn [negb]; [reflexivity|].
  assert (Hpos : (0 < p + r)%Q).
  { apply Qnot_le_lt. intros H. apply Qle_bool_iff in H. congruence. }
  rewrite div_Fin by lra. reflexivity.
Qed.

Lemma calculateMetrics_check (predictions actuals : list number) :
  predictions <> [] -> model_metrics_check (calculateMetrics predictions actuals).
Proof.
  intros Hne.
  pose proof (calculateMetrics_accuracy_percentage predictions actuals) as HA.
  destruct (calculateMetrics_rates predictions actuals)
    as (p & r & HP & HR & Hp0 & Hp1 & Hr0 & Hr1 & HF).
  cbv zeta in HP, HR, HF.
  unfold model_metrics_check. rewrite HP, HR, HF.
  split; [exact (HA Hne)|].
  split; [apply between_Fin; auto|]. split; [apply between_Fin; auto|].
  destruct (Qle_bool (p + r) 0) eqn:Epr.
  - apply between_Fin. split; lra.
  - assert (Hpos : (0 < p + r)%Q).
    { apply Qnot_le_lt. intros H. apply Qle_bool_iff in H. congruence. }
    apply between_Fin. exact (f1_bounds p r Hp0 Hp1 Hr0 Hr1 Hpos).
Qed.

Lemma floor_ceil_split (n : Z) :
  (Qfloor (inject_Z n * 0.8) + Qceiling (inject_Z n * 0.2))%Z = n.
Proof.
  unfold Qceiling.
  set (x := (inject_Z n * 0.8)%Q). set (y := (inject_Z n * 0.2)%Q).
  assert (Hxy : (x + y == inject_Z n)%Q) by (unfold x, y; ring).
  pose proof (Qfloor_le x) as Hf0. pose proof (Qlt_floor x) as Hf1.
  pose proof (Qfloor_le (- y)) as Hg0. pose proof (Qlt_floor (- y)) as Hg1.
  set (f := Qfloor x) in *. set (g := Qfloor (- y)) in *.
  clearbody f g x y.
  rewrite inject_Z_plus in Hf1, Hg1. change (inject_Z 1) with 1%Q in Hf1, Hg1.
  assert (H1 : (f < g + 1 + n)%Z).
  { rewrite Zlt_Qlt. rewrite !inject_Z_plus.
    change (inject_Z 1) with 1%Q. lra. }
  assert (H2 : (g + n < f + 1)%Z).
  { rewrite Zlt_Qlt. rewrite !inject_Z_plus.
    change (inject_Z 1) with 1%Q. lra. }
  lia.
Qed.

(** The two sample counts that [calculateMetrics] reports, the floor of
    80 % and the ceiling of 20 % of the number of predictions, always add
    up to that number. *)
Theorem calculateMetrics_sample_counts (predictions actuals : list number) :
  let m := calculateMetrics predictions actuals in
  num_eq (JS.add (training_samples m) (validation_samples m))
         (JS.of_nat (length predictions)).
Proof.
  cbv zeta. unfold calculateMetrics. cbn [training_samples validation_samples].
  unfold JS.of_nat. cbn [JS.mul MathJS.floor MathJS.ceil JS.add num_eq].
  rewrite <- inject_Z_plus. rewrite floor_ceil_split. reflexivity.
Qed.

Section TrainedMetrics.

Variable Math_exp Math_sqrt : number -> number.
Variable Math_random : nat -> number.

(** The metrics that [train] returns and stores satisfy the CHECK
    constraints of the table [model_metrics], whatever [Math.exp],
    [Math.sqrt] and [Math.random] return. *)
Theorem train_metrics_check (this : LoanEligibilityModel) (c : nat) :
  exists m this' c',
    train Math_exp Math_sqrt Math_random this c = (Normal m, this', c')
    /\ getMetrics this' = m
    /\ model_metrics_check m.
Proof.
  destruct (train_shape Math_exp Math_sqrt Math_random this c)
    as (data & c1 & this1 & c2 & _ & _ & Hval & _ & Ht).
  cbv zeta in Ht.
  eexists. eexists. eexists. split; [exact Ht|]. split; [reflexivity|].
  apply calculateMetrics_check.
  intros H0. apply (f_equal (@length _)) in H0. rewrite length_map, Hval in H0.
  discriminate H0.
Qed.

End TrainedMetrics.

(** ** More on [predict] and on what is shown of its result *)

(** The two helpers of the result card agree on every score, NaN and the
    infinities included: the label is Excellent exactly when the colour is
    green, Poor exactly when it is red, and Good or Fair exactly when it
    is yellow. *)
Theorem getCreditScore_label_colour (score : number) :
  (getCreditScoreLabel score = "Excellent" <-> getCreditScoreColor score = "text-green-600")
  /\ (getCreditScoreLabel score = "Poor" <-> getCreditScoreColor score = "text-red-600")
  /\ (getCreditScoreLabel score = "Good" \/ getCreditScoreLabel score = "Fair"
      <-> getCreditScoreColor score = "text-yellow-600").
Proof.
  unfold getCreditScoreLabel, getCreditScoreColor.
  destruct (JS.ge score (Fin 750)) eqn:E750.
  { repeat split; try tauto; try discriminate. intros [H|H]; discriminate. }
  destruct (JS.ge score (Fin 700)) eqn:E700.
  - assert (E650 : JS.ge score (Fin 650) = true).
    { destruct score as [| |q|]; try discriminate; try reflexivity.
      unfold JS.ge, JS.le in *. apply Qle_bool_iff in E700. apply Qle_bool_iff. lra. }
    rewrite E650. repeat split; try tauto; try discriminate.
  - destruct (JS.ge score (Fin 650)) eqn:E650.
    + repeat split; try tauto; try discriminate.
    + repeat split; try tauto; try discriminate. intros [H|H]; discriminate.
Qed.

Section PredictMore.

Variable Math_exp : number -> number.

(** The ranked attributions that [predict] returns always consist of five
    entries under five different names of features, for every model and
    every applicant, also when the values are NaN. *)
Theorem predict_attribution_keys (this : LoanEligibilityModel) (d : Applicant) :
  exists r,
    predict Math_exp this d = Normal r
    /\ length (feature_attributions r) = 5%nat
    /\ List.NoDup (Obj.keys (feature_attributions r))
    /\ (forall k, In k (Obj.keys (feature_attributions r)) -> In k feature_names).
Proof.
  destruct (predict_feature_attributions Math_exp this d) as (r & Hr & Hfa).
  rewrite attributions_eq in Hfa by apply feature_names_NoDup.
  set (table := map (fun name => (name, share (weights this) feature_names
                                          (predict_normalized this d) name))
                  feature_names) in *.
  assert (Hkeys : map fst table = feature_names) by apply keys_map_names.
  rewrite rankAttributions_eq in Hfa
    by (unfold Obj.keys; rewrite Hkeys; apply feature_names_NoDup).
  set (ranked := Arr.sort (fun a b => JS.sub (snd b) (snd a)) table) in *.
  assert (Hperm : Permutation ranked table) by apply sort_perm.
  clearbody ranked. clearbody table.
  assert (Hpk : Permutation (map fst ranked) feature_names).
  { rewrite <- Hkeys. now apply Permutation_map. }
  assert (Hk5 : Obj.keys (feature_attributions r) = firstn 5 (map fst ranked)).
  { rewrite Hfa. unfold Obj.keys. rewrite map_map. cbn [fst].
    symmetry. apply firstn_map. }
  exists r. split; [exact Hr|]. split; [|split].
  - rewrite Hfa, length_map, length_firstn, <- (length_map fst ranked),
      (Permutation_length Hpk). reflexivity.
  - rewrite Hk5.
    assert (Hnd : List.NoDup (map fst ranked)).
    { eapply Permutation_NoDup; [symmetry; exact Hpk|apply feature_names_NoDup]. }
    rewrite <- (firstn_skipn 5 (map fst ranked)) in Hnd.
    now apply List.NoDup_app_remove_r in Hnd.
  - intros k Hk. rewrite Hk5 in Hk. apply firstn_In in Hk.
    exact (Permutation_in _ Hpk Hk).
Qed.

Lemma predict_explanation (this : LoanEligibilityModel) (d : Applicant) :
  exists r,
    predict Math_exp this d = Normal r
    /\ explanation r =
         generateExplanation (eligibility_status r)
           (Arr.slice (Obj.keys (feature_attributions r)) (Fin 0) (Some (Fin 3)))
           (engineerFeatures this d) d.
Proof.
  unfold predict. eexists. split; [reflexivity|].
  cbn [explanation eligibility_status feature_attributions]. reflexivity.
Qed.

(** When the applicant meets none of the four conditions tested for the
    status that [predict] decides, the explanation it returns names no
    reason: it is the sentence with nothing after "based on". *)
Theorem predict_explanation_no_reason (this : LoanEligibilityModel) (d : Applicant)
    (r : PredictionResult) :
  predict Math_exp this d = Normal r ->
  no_reason (eligibility_status r) d ->
  explanation r =
    match eligibility_status r with
    | Approved => "Application approved based on ."
    | Rejected => "Application rejected based on ."
    end.
Proof.
  intros Hr Hno.
  destruct (predict_explanation this d) as (r' & Hr' & He).
  rewrite Hr in Hr'. injection Hr' as <-.
  rewrite He. clear He Hr.
  unfold generateExplanation, no_reason in *.
  change (Obj.get (engineerFeatures this d) "loan_to_income_ratio")
    with (JS.div (loan_amount d) (JS.add (income d) (Fin 1))).
  change (Obj.get (engineerFeatures this d) "risk_score")
    with (JS.mul
            (JS.mul (JS.div (loan_amount d) (JS.add (income d) (Fin 1)))
               (JS.sub (Fin 1) (credit_history d)))
            (JS.add (dependents d) (Fin 1))).
  cbv zeta in Hno.
  destruct (eligibility_status r); destruct Hno as (H1 & H2 & H3 & H4);
    rewrite H1, H2, H3, H4; reflexivity.
Qed.

Section ScoreByStatus.

Hypothesis Math_exp_range : forall q, nonneg_or_inf (Math_exp (Fin q)).

Lemma predict_score_by_status (this : LoanEligibilityModel) (d : Applicant) :
  well_formed_model this -> valid_applicant d ->
  exists r s,
    predict Math_exp this d = Normal r
    /\ credit_score r = Fin s
    /\ match eligibility_status r with
       | Approved => (575 <= s)%Q /\ (s <= 850)%Q
       | Rejected => (300 <= s)%Q /\ (s <= 575)%Q
       end.
Proof.
  intros Hm Hd.
  destruct (predict_unfold Math_exp this d) as (fa & e & H). cbv zeta in H.
  destruct (predict_probability_range Math_exp Math_exp_range this d Hm Hd)
    as (p & Hp & Hp0 & Hp1).
  rewrite Hp in H.
  eexists. eexists. split; [exact H|].
  cbn [credit_score eligibility_status JS.sub JS.neg JS.add JS.mul MathJS.round].
  split; [reflexivity|].
  unfold JS.ge, JS.le.
  destruct (Qle_bool 0.5 p) eqn:E.
  - apply Qle_bool_iff in E.
    apply between_Fin. change 575%Q with (inject_Z 575). change 850%Q with (inject_Z 850).
    apply (round_between 575 850); unfold inject_Z; lra.
  - assert (Hlt : (p < 0.5)%Q).
    { apply Qnot_le_lt. intros Hle. apply Qle_bool_iff in Hle. congruence. }
    apply between_Fin. change 575%Q with (inject_Z 575). change 300%Q with (inject_Z 300).
    apply (round_between 300 575); unfold inject_Z; lra.
Qed.

(** A Rejected result is never shown with a good score: the card labels
    its credit score Poor and colours it red. *)
Theorem predict_rejected_display (this : LoanEligibilityModel) (d : Applicant)
    (r : PredictionResult) :
  well_formed_model this -> valid_applicant d ->
  predict Math_exp this d = Normal r ->
  eligibility_status r = Rejected ->
  getCreditScoreLabel (credit_score r) = "Poor"
  /\ getCreditScoreColor (credit_score r) = "text-red-600".
Proof.
  intros Hm Hd Hr Hrej.
  destruct (predict_score_by_status this d Hm Hd) as (r' & s & Hr' & Hs & Hst).
  rewrite Hr in Hr'. injection Hr' as <-. rewrite Hrej in Hst. rewrite Hs.
  unfold getCreditScoreLabel, getCreditScoreColor, JS.ge, JS.le.
  assert (E750 : Qle_bool 750 s = false).
  { destruct (Qle_bool 750 s) eqn:E; [apply Qle_bool_iff in E; lra|reflexivity]. }
  assert (E700 : Qle_bool 700 s = false).
  { destruct (Qle_bool 700 s) eqn:E; [apply Qle_bool_iff in E; lra|reflexivity]. }
  assert (E650 : Qle_bool 650 s = false).
  { destruct (Qle_bool 650 s) eqn:E; [apply Qle_bool_iff in E; lra|reflexivity]. }
  rewrite E750, E700, E650. split; reflexivity.
Qed.

End ScoreByStatus.

Section ScoreTotal.

Hypothesis Math_exp_total : forall x, Math_exp x = NaN \/ nonneg_or_inf (Math_exp x).

(** For every model and every applicant, the status and the credit score
    that [predict] returns agree: an Approved result has a score between
    575 and 850; a Rejected result has a score between 300 and 575, or the
    score NaN (when the probability is NaN). *)
Theorem predict_status_score (this : LoanEligibilityModel) (d : Applicant) :
  exists r,
    predict Math_exp this d = Normal r
    /\ match eligibility_status r with
       | Approved => between (Fin 575) (Fin 850) (credit_score r)
       | Rejected =>
           credit_score r = NaN \/ between (Fin 300) (Fin 575) (credit_score r)
       end.
Proof.
  destruct (predict_by_probability Math_exp this d)
    as (r & Hr & Hp & _ & _ & _ & _ & Hnan & Hnum).
  exists r. split; [exact Hr|].
  destruct (sigmoid_total Math_exp Math_exp_total (predict_logit this d)) as [Hs|Hs];
    rewrite <- Hp in Hs.
  - destruct (Hnan Hs) as (-> & Hscore & _). left. exact Hscore.
  - destruct (Hnum Hs) as [_ Hst].
    destruct (eligibility_status r); [exact Hst|right; exact Hst].
Qed.

End ScoreTotal.


End PredictMore.

(** ** The bank offers *)

(** *** Sorting by a numeric key, in ascending order *)

Section AscendingSort.

Context {A : Type} (key : A -> number).

Lemma asc_comparator (a b : A) :
  is_finite (key a) -> is_finite (key b) ->
  (JS.gt (key_difference key a b) (Fin 0) = true -> ascending key b a)
  /\ (JS.gt (key_difference key a b) (Fin 0) = false -> ascending key a b).
Proof.
  unfold ascending, key_difference. destruct (key a) as [| |x|], (key b) as [| |y|];
    cbn [is_finite]; try contradiction. intros _ _.
  cbn [JS.sub JS.neg JS.add JS.gt JS.lt JS.le].
  destruct (Qle_bool (x + - y) 0) eqn:E; cbn [negb]; split; intros H;
    try discriminate; apply Qle_bool_iff.
  - apply Qle_bool_iff in E. lra.
  - assert (Hlt : (0 < x + - y)%Q).
    { apply Qnot_le_lt. intros Hle. apply Qle_bool_iff in Hle. congruence. }
    lra.
Qed.

Lemma asc_trans (a b c : A) :
  is_finite (key b) -> ascending key a b -> ascending key b c -> ascending key a c.
Proof.
  unfold ascending. destruct (key a) as [| |x|], (key b) as [| |y|], (key c) as [| |z|];
    cbn [is_finite JS.le]; try contradiction; try discriminate; try reflexivity.
  intros _ H1 H2. apply Qle_bool_iff in H1, H2. apply Qle_bool_iff. lra.
Qed.

Lemma sort_insert_ascending (x : A) (l : list A) :
  is_finite (key x) -> Forall (fun a => is_finite (key a)) l ->
  StronglySorted (ascending key) l ->
  StronglySorted (ascending key) (Arr.sort_insert (key_difference key) x l).
Proof.
  intros Hx Hl Hs. induction l as [|y l IH]; cbn [Arr.sort_insert].
  - constructor; constructor.
  - apply Forall_cons_iff in Hl as [Hy Hl].
    apply StronglySorted_inv in Hs as [Hs Hyl].
    destruct (asc_comparator x y Hx Hy) as [Hgt Hle].
    destruct (JS.gt (key_difference key x y) (Fin 0)).
    + constructor; [now apply IH|].
      rewrite sort_insert_perm. constructor; [now apply Hgt|assumption].
    + constructor; [now constructor|].
      constructor; [now apply Hle|].
      eapply List.Forall_impl; [|exact Hyl].
      intros z Hz. apply (asc_trans x y z); auto.
Qed.

Lemma sort_ascending (l : list A) :
  Forall (fun a => is_finite (key a)) l ->
  StronglySorted (fun a b => JS.le (key a) (key b) = true)
    (Arr.sort (fun a b => JS.sub (key a) (key b)) l).
Proof.
  change (Forall (fun a => is_finite (key a)) l
          -> StronglySorted (ascending key) (Arr.sort (key_difference key) l)).
  induction l as [|x l IH]; intros Hl; cbn [Arr.sort]; [constructor|].
  apply Forall_cons_iff in Hl as [Hx Hl].
  apply sort_insert_ascending; [assumption| |now apply IH].
  now rewrite sort_perm.
Qed.

End AscendingSort.

Section OffersMore.

Variable Math_pow_other : number -> number -> number.

Lemma rankOffer_rate_finite (loanAmount loanTerm : number) (o : BankOffer.t) :
  finite_rates o ->
  is_finite (RankedBankOffer.effective_annual_rate
               (rankOffer Math_pow_other loanAmount loanTerm o)).
Proof.
  intros [Hr Hf]. unfold rankOffer, calculateEffectiveAnnualRate.
  cbn [RankedBankOffer.effective_annual_rate].
  destruct (BankOffer.interest_rate o) as [| |r|]; try contradiction.
  destruct (BankOffer.processing_fee o) as [| |f|]; try contradiction.
  cbn [JS.mul JS.add MathJS.round]. rewrite div_Fin by (intros H; discriminate H).
  exact I.
Qed.

(** [fetchBankOffers] returns no offer exactly when the query failed, or
    resolved to no rows. *)
Theorem fetchBankOffers_empty_iff (resolved : Supabase.response (list BankOffer.t))
    (loanAmount loanTerm : number) :
  fetchBankOffers Math_pow_other resolved loanAmount loanTerm = []
  <-> (Supabase.error resolved <> None
       \/ Supabase.data resolved = None
       \/ Supabase.data resolved = Some []).
Proof.
  unfold fetchBankOffers.
  destruct (Supabase.error resolved) as [e|].
  { split; [intros _; left; discriminate|reflexivity]. }
  destruct (Supabase.data resolved) as [offers|].
  2:{ split; [intros _; right; left; reflexivity|reflexivity]. }
  destruct offers as [|o offers]; cbn [length Nat.eqb].
  { split; [intros _; right; right; reflexivity|reflexivity]. }
  split.
  - intros H. apply (f_equal (@length _)) in H.
    rewrite (Permutation_length (sort_perm _ _)) in H. discriminate H.
  - intros [H|[H|H]]; [now contradiction H|discriminate H|discriminate H].
Qed.

(** When the query succeeds, [fetchBankOffers] returns one ranked offer per
    row, and, the rates and fees of the rows being finite, in ascending
    order of effective annual rate: the first one shown is a cheapest. *)
Theorem fetchBankOffers_sorted (resolved : Supabase.response (list BankOffer.t))
    (loanAmount loanTerm : number) (offers : list BankOffer.t) :
  Supabase.error resolved = None ->
  Supabase.data resolved = Some offers ->
  Forall finite_rates offers ->
  let ranked := fetchBankOffers Math_pow_other resolved loanAmount loanTerm in
  Permutation ranked (map (rankOffer Math_pow_other loanAmount loanTerm) offers)
  /\ StronglySorted cheaper ranked.
Proof.
  intros He Hd Hfin ranked. unfold ranked, fetchBankOffers. rewrite He, Hd.
  destruct offers as [|o offers]; cbn [length Nat.eqb].
  { split; constructor. }
  split; [apply sort_perm|].
  apply (sort_ascending RankedBankOffer.effective_annual_rate).
  apply List.Forall_forall. intros x Hx. apply in_map_iff in Hx as (o' & <- & Ho').
  apply rankOffer_rate_finite.
  exact (proj1 (List.Forall_forall _ _) Hfin o' Ho').
Qed.

(** *** The instalment *)

Lemma monthlyRate_Fin (r : Q) :
  JS.div (JS.div (Fin r) (Fin 12)) (Fin 100) = Fin (r / 12 / 100).
Proof.
  rewrite div_Fin by (intros H; discriminate H).
  rewrite div_Fin by (intros H; discriminate H). reflexivity.
Qed.

(** At an annual rate of 0 the instalment is the principal divided by the
    tenure and is not rounded, whatever the principal and the tenure are
    (a tenure of 0 gives an infinity or NaN). *)
Theorem calculateEMI_zero_rate (principal tenure : number) (r : Q) :
  (r == 0)%Q ->
  calculateEMI Math_pow_other principal (Fin r) tenure = JS.div principal tenure.
Proof.
  intros Hr. unfold calculateEMI. rewrite monthlyRate_Fin.
  cbn [JS.strict_eq].
  replace (Qeq_bool (r / 12 / 100) 0) with true; [reflexivity|].
  symmetry. apply Qeq_bool_iff. rewrite Hr. reflexivity.
Qed.

Lemma inject_nat_S (n : nat) :
  (inject_Z (Z.of_nat (S n)) == inject_Z (Z.of_nat n) + 1)%Q.
Proof.
  rewrite Nat2Z.inj_succ. unfold Z.succ. now rewrite inject_Z_plus.
Qed.

Lemma Math_pow_whole (x : number) (k : nat) :
  Math_pow Math_pow_other x (JS.of_nat k) = MathJS.pow x k.
Proof.
  unfold Math_pow, JS.of_nat. rewrite Qfloor_Z, Nat2Z.id.
  replace (Qle_bool 0 (inject_Z (Z.of_nat k))) with true.
  2:{ symmetry. apply Qle_bool_iff. change 0%Q with (inject_Z 0).
      rewrite <- Zle_Qle. lia. }
  replace (Qeq_bool (inject_Z (Z.of_nat k)) (inject_Z (Z.of_nat k))) with true.
  2:{ symmetry. apply Qeq_bool_iff. reflexivity. }
  reflexivity.
Qed.

(** Compound growth: (1 + i)^k as [Math.pow] computes it, and the bound
    (1 + i)^k * (1 - k * i) <= 1. *)
Lemma growth_bound (i : Q) (k : nat) :
  (0 < i)%Q ->
  exists x, MathJS.pow (Fin (1 + i)) k = Fin x
            /\ (1 <= x)%Q
            /\ (x * (1 - inject_Z (Z.of_nat k) * i) <= 1)%Q
            /\ ((0 < k)%nat -> (1 + i <= x)%Q).
Proof.
  intros Hi. induction k as [|k IH].
  - exists 1%Q. cbn [MathJS.pow]. split; [reflexivity|].
    change (inject_Z (Z.of_nat 0)) with 0%Q.
    split; [lra|]. split; [lra|]. intros H. inversion H.
  - destruct IH as (x & Hx & H1 & Hb & _).
    exists ((1 + i) * x)%Q. cbn [MathJS.pow]. rewrite Hx. cbn [JS.mul].
    split; [reflexivity|]. rewrite inject_nat_S.
    set (n := inject_Z (Z.of_nat k)) in *.
    assert (Hn : (0 <= n)%Q).
    { unfold n. change 0%Q with (inject_Z 0). rewrite <- Zle_Qle. lia. }
    clearbody n.
    assert (Hxi : (0 <= x * i)%Q) by nra.
    assert (Hsq : (0 <= x * ((n + 1) * (i * i)))%Q).
    { apply Qmult_le_0_compat; [lra|]. apply Qmult_le_0_compat; [lra|nra]. }
    split; [nra|]. split; [|intros _; nra].
    assert (Heq : ((1 + i) * x * (1 - (n + 1) * i)
                   == x * (1 - n * i) - x * ((n + 1) * (i * i)))%Q) by ring.
    rewrite Heq. lra.
Qed.

(** At an annual rate between 0.01 and 100 percent, for a principal
    between 0 and 10^15 and a tenure of k months, 1 <= k <= 1200, the
    instalment is a whole number, and it is not below the rounded
    interest-free instalment principal / k.  In exact arithmetic this
    holds at every positive rate; the bounds are those within which it
    holds of doubles as well, away from the cancellation in (1 + i)^k - 1
    at tiny rates and from overflow. *)
Theorem calculateEMI_at_least_interest_free (principal r : Q) (k : nat) :
  (0 <= principal)%Q -> (principal <= inject_Z (10 ^ 15))%Q ->
  (0.01 <= r)%Q -> (r <= 100)%Q ->
  (0 < k)%nat -> (k <= 1200)%nat ->
  exists e : Z,
    calculateEMI Math_pow_other (Fin principal) (Fin r) (JS.of_nat k) = Fin (inject_Z e)
    /\ JS.ge (Fin (inject_Z e)) (MathJS.round (JS.div (Fin principal) (JS.of_nat k))) = true.
Proof.
  intros HP _ Hr01 _ Hk _.
  assert (Hr : (0 < r)%Q) by lra. clear Hr01.
  unfold calculateEMI. rewrite monthlyRate_Fin.
  set (i := (r / 12 / 100)%Q).
  assert (Hi : (0 < i)%Q).
  { unfold i. apply Qlt_shift_div_l; [lra|]. apply Qlt_shift_div_l; lra. }
  clearbody i.
  cbn [JS.strict_eq]. rewrite (Qeq_bool_false i 0) by lra.
  rewrite Math_pow_whole. cbn [JS.add].
  destruct (growth_bound i k Hi) as (x & Hx & H1 & Hb & Hx1).
  specialize (Hx1 Hk). rewrite Hx.
  pose proof (inject_nat_pos k Hk) as Hn.
  unfold JS.of_nat. set (n := inject_Z (Z.of_nat k)) in *. clearbody n.
  cbn [JS.mul JS.sub JS.neg JS.add].
  rewrite div_Fin by lra. rewrite div_Fin by lra.
  cbn [MathJS.round JS.ge JS.le].
  eexists. split; [reflexivity|].
  apply Qle_bool_iff. rewrite <- Zle_Qle. apply Qfloor_resp_le.
  assert (Hemi : (principal / n <= principal * i * x / (x + - (1)))%Q).
  { assert (Hd : (0 < x + - (1))%Q) by lra.
    apply Qle_shift_div_l; [exact Hd|].
    assert (Hpn : (principal == principal / n * n)%Q) by (field; lra).
    assert (Hpn0 : (0 <= principal / n)%Q) by (apply Qle_shift_div_l; lra).
    set (pn := (principal / n)%Q) in *. clearbody pn.
    rewrite Hpn.
    assert (Hkey : (0 <= i * x * n - (x + - (1)))%Q) by lra.
    pose proof (Qmult_le_0_compat _ _ Hpn0 Hkey) as Hprod.
    assert (Heq : (pn * n * i * x == pn * (x + - (1)) + pn * (i * x * n - (x + - (1))))%Q)
      by ring.
    rewrite Heq. lra. }
  lra.
Qed.

End OffersMore.

(** ** The application service *)

Section ServiceMore.

Variable Math_exp Math_sqrt : number -> number.
Variable Math_random : nat -> number.
Variable insertApplicant : Applicant -> Supabase.response ApplicantRow.t.
Variable insertPrediction : PredictionData.t -> Supabase.response PredictionRow.t.

(** When the insert into [applicants] fails, [submitApplication] throws
    before it touches the model: [globalModel] is as it was, nothing is
    trained and [Math.random] is not called. *)
Theorem submitApplication_insert_failure (globalModel : option LoanEligibilityModel)
    (c : nat) (d : Applicant) :
  (Supabase.error (insertApplicant d) <> None \/ Supabase.data (insertApplicant d) = None) ->
  exists e,
    submitApplication Math_exp Math_sqrt Math_random insertApplicant insertPrediction
      globalModel c d
    = (Throw e, globalModel, c).
Proof.
  intros H. unfold submitApplication, insertOutcome.
  destruct (Supabase.error (insertApplicant d)) as [msg|].
  - eexists. reflexivity.
  - destruct H as [H|H]; [now contradiction H|]. rewrite H. eexists. reflexivity.
Qed.

Lemma getOrCreateModel_returns (globalModel : option LoanEligibilityModel) (c : nat) :
  exists m c',
    getOrCreateModel Math_exp Math_sqrt Math_random globalModel c = (Normal m, Some m, c').
Proof.
  destruct globalModel as [m|]; cbn [getOrCreateModel].
  - exists m, c. reflexivity.
  - destruct (train_run Math_exp Math_sqrt Math_random constructor c)
      as (mt & this' & Ht & _).
    rewrite Ht. eexists. eexists. reflexivity.
Qed.

(** When the insert into [applicants] succeeds, [submitApplication] sends
    to [predictions] the prediction of the module's model, with the id of
    the inserted applicant and the model's version; its outcome is the
    database's answer to that row, and [globalModel] holds the model
    afterwards.  The row meets the CHECK constraints of the table
    [predictions] when the probability of the prediction lies in [0, 1];
    when that probability is NaN the row carries the credit score NaN and
    does not meet them. *)
Theorem submitApplication_row_check (globalModel : option LoanEligibilityModel)
    (c : nat) (d : Applicant) (a : ApplicantRow.t) :
  Supabase.error (insertApplicant d) = None ->
  Supabase.data (insertApplicant d) = Some a ->
  exists m r c',
    getOrCreateModel Math_exp Math_sqrt Math_random globalModel c = (Normal m, Some m, c')
    /\ predict Math_exp m d = Normal r
    /\ PredictionData.applicant_id (predictionData a m r) = ApplicantRow.id a
    /\ PredictionData.model_version (predictionData a m r) = getVersion m
    /\ submitApplication Math_exp Math_sqrt Math_random insertApplicant insertPrediction
         globalModel c d
       = (match insertOutcome "prediction" (insertPrediction (predictionData a m r)) with
          | Throw e => Throw e
          | Normal p => Normal (Submission.mk a p r)
          end, Some m, c')
    /\ (between (Fin 0) (Fin 1) (probability_approved r) ->
        predictions_check (predictionData a m r))
    /\ (probability_approved r = NaN ->
        PredictionData.credit_score (predictionData a m r) = NaN
        /\ ~ predictions_check (predictionData a m r)).
Proof.
  intros He Ha.
  destruct (getOrCreateModel_returns globalModel c) as (m & c' & Hget).
  destruct (predict_by_probability Math_exp m d)
    as (r & Hr & _ & _ & _ & _ & _ & Hnan & Hnum).
  exists m, r, c'. split; [exact Hget|]. split; [exact Hr|].
  split; [reflexivity|]. split; [reflexivity|]. split; [|split].
  - unfold submitApplication. unfold insertOutcome at 1. rewrite He, Ha, Hget, Hr.
    destruct (insertOutcome "prediction" (insertPrediction (predictionData a m r)));
      reflexivity.
  - intros Hp. destruct (Hnum Hp) as [Hconf Hscore].
    unfold predictions_check, predictionData.
    cbn [PredictionData.credit_score PredictionData.prediction_confidence].
    split.
    + destruct (eligibility_status r);
        [apply (between_mono 575 850)|apply (between_mono 300 575)];
        try exact Hscore; lra.
    + apply (between_mono 50 100); [lra|lra|exact Hconf].
  - intros Hp. destruct (Hnan Hp) as (_ & Hscore & _).
    unfold predictions_check, predictionData.
    cbn [PredictionData.credit_score PredictionData.prediction_confidence].
    split; [exact Hscore|]. rewrite Hscore. intros [[H0 _] _]. discriminate H0.
Qed.

End ServiceMore.

(** ** The statements on examples *)

(** C2, as stated, fails: on the model that the constructor builds,
    [predict] does not signal an error; it returns an approval with
    probability 1/2, credit score 575, confidence 50 and attributions that
    are all NaN. *)
Lemma predict_untrained_returns :
  ~ (exists e, predict rational_exp constructor applicantA = Throw e)
  /\ exists r,
       predict rational_exp constructor applicantA = Normal r
       /\ eligibility_status r = Approved
       /\ credit_score r = Fin 575
       /\ prediction_confidence r = Fin 50
       /\ num_eq (probability_approved r) (Fin 0.5)
       /\ feature_attributions r =
            [("income", NaN); ("credit_history", NaN); ("loan_amount", NaN);
             ("loan_term", NaN); ("dependents", NaN)].
Proof.
  split.
  - intros [e H]. discriminate H.
  - eexists. split; [reflexivity|]. vm_compute. repeat split; reflexivity.
Qed.

(** C9, as stated, fails: not for every input profile does the untrained
    model return logit 0, probability 0.5 and an approval.  Outside the
    validated ranges it still returns without an error, but with a loan
    term of 0 the monthly burden is infinite, Infinity * 0 is NaN, and so
    are the logit and the probability; the status is Rejected. *)
Lemma predict_untrained_zero_term :
  exists r,
    predict rational_exp constructor applicantZeroTerm = Normal r
    /\ Obj.get (engineerFeatures constructor applicantZeroTerm) "monthly_burden" = PosInf
    /\ predict_logit constructor applicantZeroTerm = NaN
    /\ probability_approved r = NaN
    /\ eligibility_status r = Rejected.
Proof.
  eexists. split; [reflexivity|]. vm_compute. repeat split; reflexivity.
Qed.

Lemma getOrCreateModel_trained_witness :
  global_inv None
  /\ exists m c',
       getOrCreateModel rational_exp floor_sqrt example_random None 0 = (Normal m, Some m, c')
       /\ initialized m.
Proof.
  split; [exact I|].
  destruct (getOrCreateModel_trained rational_exp floor_sqrt example_random None 0 I)
    as [(m & c' & H & Hi & _) _].
  exists m, c'. auto.
Defined.

Lemma trainEnsemble_scaler_witness :
  example_data <> []
  /\ exists this' c',
       trainEnsemble rational_exp floor_sqrt example_random constructor example_data 0
         = (Normal tt, this', c')
       /\ mean (scaler this') !! "income"
          = Some (population_mean [Fin 1200000; Fin 150000])
       /\ JS.strict_eq (JS.get_or (std (scaler this')) "income" (Fin 1)) (Fin 0) = false.
Proof.
  assert (Hne : example_data <> []) by discriminate.
  split; [exact Hne|].
  destruct (trainEnsemble_scaler rational_exp floor_sqrt example_random
              constructor example_data 0 Hne) as (this' & c' & H & Hall).
  exists this', c'. split; [exact H|].
  destruct (Hall "income") as (Hm & _ & _ & _ & Hs & _).
  - cbn. auto.
  - split; [exact Hm|exact Hs].
Defined.

(** The counts do not depend on the exact arithmetic: in binary64,
    5000 * 0.8, 1000 * 0.8 and 1000 * 0.2 are exactly 4000, 800 and 200. *)
Lemma binary64_products_exact : Binary64.products_exact = true.
Proof. vm_compute. reflexivity. Qed.

Lemma example_random_range (n : nat) :
  exists q, example_random n = Fin q /\ (0 <= q)%Q /\ (q < 1)%Q.
Proof.
  unfold example_random. eexists. split; [reflexivity|].
  pose proof (Nat.mod_upper_bound (n * 37) 100) as Hlt.
  assert (H0 : (0 <= inject_Z (Z.of_nat ((n * 37) mod 100)))%Q).
  { change 0%Q with (inject_Z 0). rewrite <- Zle_Qle. lia. }
  assert (H1 : (inject_Z (Z.of_nat ((n * 37) mod 100)) < inject_Z 100)%Q).
  { rewrite <- Zlt_Qlt. lia. }
  unfold inject_Z at 2 in H1.
  split.
  - apply Qle_shift_div_l; lra.
  - apply Qlt_shift_div_r; lra.
Qed.

(** ** Where the probability is not a number *)













(** ** The further properties on examples *)

Lemma applicantB_valid : valid_applicant applicantB.
Proof.
  exists 150000%Q, 0.1%Q, 4000000%Q, 360%Q, 4%Q.
  repeat split; try reflexivity; try discriminate.
Qed.

Lemma generateSyntheticData_ranges_witness :
  Forall generated_example (fst (generateSyntheticData example_random constructor 3 0)).
Proof.
  exact (generateSyntheticData_ranges example_random example_random_range constructor 3 0).
Defined.

Lemma countOutcomes_partition_witness :
  let k := countOutcomes [Fin 0.7; Fin 0.2; Fin 0.5; NaN] [Fin 1; Fin 0; Fin 0; Fin 1]
             (mkConfusion 0 0 0 0) in
  (tp k + fp k + tn k + fn k)%nat = 4%nat.
Proof.
  apply (countOutcomes_partition [Fin 0.7; Fin 0.2; Fin 0.5; NaN]
           [Fin 1; Fin 0; Fin 0; Fin 1] eq_refl).
  repeat (constructor; [first [left; reflexivity|right; reflexivity]|]). constructor.
Defined.

Lemma calculateMetrics_no_positive_witness :
  let m := calculateMetrics [Fin 0.2; NaN; Fin 0.4] [Fin 1; Fin 0; Fin 1] in
  precision m = Fin 0 /\ num_eq (recall m) (Fin 0) /\ f1_score m = Fin 0.
Proof.
  apply (calculateMetrics_no_positive [Fin 0.2; NaN; Fin 0.4] [Fin 1; Fin 0; Fin 1]).
  repeat (constructor; [reflexivity|]). constructor.
Defined.

Lemma calculateMetrics_all_correct_witness :
  num_eq (accuracy (calculateMetrics [Fin 0.9; Fin 0.1] [Fin 1; Fin 0])) (Fin 100).
Proof.
  apply (calculateMetrics_all_correct [Fin 0.9; Fin 0.1] [Fin 1; Fin 0]);
    [discriminate|].
  constructor; [left; split; reflexivity|].
  constructor; [right; split; reflexivity|]. constructor.
Defined.

Lemma predict_explanation_no_reason_witness :
  exists r,
    predict rational_exp example_model applicantPlain = Normal r
    /\ eligibility_status r = Rejected
    /\ explanation r = "Application rejected based on .".
Proof.
  eexists. split; [reflexivity|]. split; [vm_compute; reflexivity|].
  apply (predict_explanation_no_reason rational_exp example_model applicantPlain);
    [reflexivity|].
  vm_compute. repeat split; reflexivity.
Defined.

Lemma predict_status_score_witness :
  exists r,
    predict rational_exp example_model applicantA = Normal r
    /\ match eligibility_status r with
       | Approved => between (Fin 575) (Fin 850) (credit_score r)
       | Rejected =>
           credit_score r = NaN \/ between (Fin 300) (Fin 575) (credit_score r)
       end.
Proof.
  exact (predict_status_score rational_exp rational_exp_total example_model applicantA).
Defined.

Lemma predict_rejected_display_witness :
  exists r,
    predict rational_exp example_model applicantB = Normal r
    /\ getCreditScoreLabel (credit_score r) = "Poor"
    /\ getCreditScoreColor (credit_score r) = "text-red-600".
Proof.
  eexists. split; [reflexivity|].
  apply (predict_rejected_display rational_exp rational_exp_range example_model applicantB _
           example_model_well_formed applicantB_valid);
    [reflexivity|vm_compute; reflexivity].
Defined.

Lemma fetchBankOffers_sorted_witness :
  let ranked := fetchBankOffers no_other_pow example_response (Fin 1000000) (Fin 12) in
  Permutation ranked (map (rankOffer no_other_pow (Fin 1000000) (Fin 12)) [offerHigh; offerLow])
  /\ StronglySorted cheaper ranked.
Proof.
  apply (fetchBankOffers_sorted no_other_pow example_response (Fin 1000000) (Fin 12)
           [offerHigh; offerLow] eq_refl eq_refl).
  constructor; [split; exact I|]. constructor; [split; exact I|]. constructor.
Defined.

Lemma calculateEMI_zero_rate_witness :
  calculateEMI no_other_pow (Fin 1200000) (Fin 0) (Fin 7) = JS.div (Fin 1200000) (Fin 7).
Proof.
  apply (calculateEMI_zero_rate no_other_pow (Fin 1200000) (Fin 7) 0). reflexivity.
Defined.

Lemma calculateEMI_at_least_interest_free_witness :
  exists e : Z,
    calculateEMI no_other_pow (Fin 1000000) (Fin 12) (JS.of_nat 12) = Fin (inject_Z e)
    /\ JS.ge (Fin (inject_Z e)) (MathJS.round (JS.div (Fin 1000000) (JS.of_nat 12))) = true.
Proof.
  apply (calculateEMI_at_least_interest_free no_other_pow 1000000 12 12);
    try lia; apply Qle_bool_iff; vm_compute; reflexivity.
Defined.

Lemma submitApplication_insert_failure_witness :
  exists e,
    submitApplication rational_exp floor_sqrt example_random refuseApplicant storePrediction
      None 0 applicantA
    = (Throw e, None, 0%nat).
Proof.
  apply (submitApplication_insert_failure rational_exp floor_sqrt example_random
           refuseApplicant storePrediction None 0 applicantA).
  left. discriminate.
Defined.

Lemma submitApplication_row_check_witness :
  exists m r c' p,
    predict rational_exp m applicantA = Normal r
    /\ (between (Fin 0) (Fin 1) (probability_approved r) ->
        predictions_check
          (predictionData (ApplicantRow.mk (Some "applicant-1") applicantA (Some "2025-10-30"))
             m r))
    /\ submitApplication rational_exp floor_sqrt example_random storeApplicant storePrediction
         None 0 applicantA
       = (Normal
            (Submission.mk
               (ApplicantRow.mk (Some "applicant-1") applicantA (Some "2025-10-30")) p r),
          Some m, c').
Proof.
  destruct (submitApplication_row_check rational_exp floor_sqrt example_random
              storeApplicant storePrediction
              None 0 applicantA
              (ApplicantRow.mk (Some "applicant-1") applicantA (Some "2025-10-30"))
              eq_refl eq_refl)
    as (m & r & c' & _ & Hr & _ & _ & Hs & Hcheck & _).
  exists m, r, c'. eexists. split; [exact Hr|]. split; [exact Hcheck|].
  rewrite Hs. reflexivity.
Defined.
